(** * clever-questions: the submission form and its Supabase client wrapper

    A shallow embedding of
    - [src/lib/supabase.ts]: [getCurrentUser], [uploadFile],
      [createSubmission];
    - the submission form component: [handleSubmit];
    - the variant client set-up: [createSupabaseClient] and its stub client.

    JavaScript values are an inductive type, objects are finite maps from
    property names to values.  The code is effectful: it reads local storage,
    talks to the hosted platform, changes React state, shows toasts and
    navigates.  It is embedded in a small monad [M] that threads the state of
    the world, collects the observable effects of a run in a trace, and has
    the three completions of a JavaScript statement (normal, [return],
    [throw]).  The platform SDK, which is not part of the repository, is an
    interface ([Platform]). *)

From Stdlib Require Import ZArith String Ascii List Lia.
From Stdlib Require Import Floats.SpecFloat.
From stdpp Require Import base option list gmap strings pretty.

Set Warnings "-register-all".
Local Open Scope string_scope.
Local Open Scope Z_scope.

(** ** JavaScript values *)

(** Numbers are IEEE 754 doubles, [spec_float]. *)
Inductive value : Type :=
| VUndefined
| VNull
| VBool (b : bool)
| VNum (x : spec_float)
| VStr (s : string)
| VArr (xs : list value)
| VObj (fields : gmap string value).

(** ToBoolean: [undefined], [null], [false], [0], [-0], [NaN] and the empty
    string are falsy, every object and array is truthy. *)
Definition truthy (v : value) : bool :=
  match v with
  | VUndefined | VNull => false
  | VBool b => b
  | VNum (S754_zero _) | VNum S754_nan => false
  | VNum _ => true
  | VStr s => negb (String.eqb s "")
  | VArr _ | VObj _ => true
  end.

(** What a [throw] carries: an [Error] with its message, or any other
    value. *)
Inductive exn : Type :=
| JsError (message : string)
| JsThrown (v : value).

(** [e instanceof Error ? e.message : fallback] *)
Definition message_or (e : exn) (fallback : string) : string :=
  match e with
  | JsError m => m
  | JsThrown _ => fallback
  end.

(** A browser [File]. *)
Record File : Type := mkFile { name : string; content : string }.

(** The [{ data, error }] pair every SDK request answers with. *)
Record PlatformError : Type := mkPlatformError { message : string }.
Record Response : Type := mkResponse { data : value; error : option PlatformError }.

(** Options of [storage.upload]. *)
Record UploadOptions : Type :=
  mkUploadOptions { cacheControl : string; upsert : bool }.

(** The user object of the auth context ([useAuth]); the context is not among
    the sources, the form only reads [user.id]. *)
Record AuthUser : Type := mkAuthUser { id : string }.

(** Result of [uploadFile]. *)
Record Uploaded : Type := mkUploaded { path : string; url : string }.

(** ** The platform *)

(** What the code consumes from outside the repository: [JSON.parse], the
    clock, the [URL] constructor ([new_URL] gives what it throws on an invalid
    URL) and the Supabase SDK ([createClient], [storage.upload],
    [storage.getPublicUrl], [from(table).insert(rows).select().single()]).
    [Env] is the state of everything outside the page: storage bucket,
    tables, network.  A request either answers with a [Response] or
    rejects. *)
Class Platform : Type := {
  Env : Type;
  SdkClient : Type;
  new_URL : string -> option exn;
  createClient : string -> string -> exn + SdkClient;
  JSON_parse : string -> option value;
  Date_now : Env -> Z * Env;
  storage_upload :
    string -> string -> File -> UploadOptions -> Env -> (exn + Response) * Env;
  storage_getPublicUrl : string -> string -> string;
  table_insert_select_single :
    string -> list (gmap string value) -> Env -> (exn + Response) * Env
}.

(** [JSON.parse] rejects the empty text. *)
Definition JSON_parse_rejects_empty `{Platform} : Prop := JSON_parse "" = None.

(** The optional [onSuccess] prop: a parent's callback. *)
Definition Callback `{Platform} : Type := Env -> (exn + unit) * Env.

(** The callback, if there is one, returns normally. *)
Definition returns `{Platform} (onSuccess : option Callback) : Prop :=
  ∀ callback e, onSuccess = Some callback → ∃ e', callback e = (inr tt, e').

(** ** Observable effects *)

Inductive Event : Type :=
| EPreventDefault
| EToast (title description : string) (destructive : bool)
| ENavigate (to : string)
| ESetIsSubmitting (b : bool)
| EConsoleLog (label : string)
| EConsoleError (label : string)
| EOnSuccess
(* requests sent to the platform *)
| EStorageUpload (bucket fileName : string) (file : File) (opts : UploadOptions)
| EGetPublicUrl (bucket fileName : string)
| ETableInsert (table : string) (rows : list (gmap string value))
(* entry and outcome of the two wrapper functions *)
| ECallUploadFile (file : File) (fileName : string)
| EUploadFileResolved (r : Uploaded)
| EUploadFileRejected (e : exn)
| ECallCreateSubmission (submission : gmap string value)
| ECreateSubmissionResolved (row : value)
| ECreateSubmissionRejected (e : exn).

(** ** The monad *)

Inductive completion (A : Type) : Type :=
| Normal (a : A)
| Return
| Throw (e : exn).
Arguments Normal {A} a.
Arguments Return {A}.
Arguments Throw {A} e.

Section Monad.
Context `{P : Platform}.

(** The page's world: the platform, the browser's local storage and the
    form's [isSubmitting] state. *)
Record World : Type := mkWorld {
  env : Env;
  localStorage : gmap string string;
  isSubmitting : bool
}.

(** A run ends in a completion and a world, and has shown a trace. *)
Record Run (A : Type) : Type := mkRun {
  outcome : completion A;
  final : World;
  trace : list Event
}.
Arguments mkRun {A} _ _ _.
Arguments outcome {A} _.
Arguments final {A} _.
Arguments trace {A} _.

Definition M (A : Type) : Type := World -> Run A.

Definition ret {A} (a : A) : M A := fun w => mkRun (Normal a) w [].

Definition bind {A B} (m : M A) (k : A -> M B) : M B :=
  fun w =>
    match m w with
    | mkRun (Normal a) w1 t1 =>
        match k a w1 with
        | mkRun c w2 t2 => mkRun c w2 (t1 ++ t2)
        end
    | mkRun Return w1 t1 => mkRun Return w1 t1
    | mkRun (Throw e) w1 t1 => mkRun (Throw e) w1 t1
    end.

Definition throw {A} (e : exn) : M A := fun w => mkRun (Throw e) w [].

(** [return;] *)
Definition return_ {A} : M A := fun w => mkRun Return w [].

Definition emit (e : Event) : M unit := fun w => mkRun (Normal tt) w [e].

(** [try { body } catch (e) { handler }] *)
Definition try_catch {A} (body : M A) (handler : exn -> M A) : M A :=
  fun w =>
    match body w with
    | mkRun (Throw e) w1 t1 =>
        match handler e w1 with
        | mkRun c w2 t2 => mkRun c w2 (t1 ++ t2)
        end
    | r => r
    end.

(** [try { body } finally { fin }]: [fin] runs however [body] completes, and
    the completion of [body] stands unless [fin] completes abruptly. *)
Definition try_finally {A} (body : M A) (fin : M unit) : M A :=
  fun w =>
    match body w with
    | mkRun c w1 t1 =>
        match fin w1 with
        | mkRun (Normal _) w2 t2 => mkRun c w2 (t1 ++ t2)
        | mkRun Return w2 t2 => mkRun Return w2 (t1 ++ t2)
        | mkRun (Throw e) w2 t2 => mkRun (Throw e) w2 (t1 ++ t2)
        end
    end.

(** The body of a function that returns nothing: [return;] ends the call
    normally. *)
Definition function_body (body : M unit) : M unit :=
  fun w =>
    match body w with
    | mkRun Return w1 t1 => mkRun (Normal tt) w1 t1
    | r => r
    end.

(** A request to the platform: it acts on [Env] only; a rejected promise is
    thrown at the [await]. *)
Definition request {A} (ev : Event) (f : Env -> (exn + A) * Env) : M A :=
  fun w =>
    let '(res, env') := f (env w) in
    let w' := mkWorld env' (localStorage w) (isSubmitting w) in
    match res with
    | inl e => mkRun (Throw e) w' [ev]
    | inr a => mkRun (Normal a) w' [ev]
    end.

(** Marks entry and outcome of a wrapper function in the trace. *)
Definition observed {A} (entry : Event) (resolved : A -> Event)
    (rejected : exn -> Event) (body : M A) : M A :=
  fun w =>
    match body w with
    | mkRun (Normal a) w1 t1 => mkRun (Normal a) w1 (entry :: t1 ++ [resolved a])
    | mkRun Return w1 t1 => mkRun Return w1 (entry :: t1)
    | mkRun (Throw e) w1 t1 => mkRun (Throw e) w1 (entry :: t1 ++ [rejected e])
    end.

End Monad.

Arguments mkRun {P A} _ _ _.
Arguments outcome {P A} _.
Arguments final {P A} _.
Arguments trace {P A} _.

(** stdpp's monad notations: [x ← m; k] and [m ;; k]. *)
#[global] Instance M_ret `{P : Platform} : MRet M := @ret P.
#[global] Instance M_bind `{P : Platform} : MBind M :=
  fun A B k m => bind m k.

(** ** Pieces of the JavaScript library *)

(** [s.split(sep)] for a one-character separator. *)
Fixpoint split (sep : ascii) (s : string) : list string :=
  match s with
  | EmptyString => [""]
  | String c s' =>
      if Ascii.eqb c sep then "" :: split sep s'
      else match split sep s' with
           | x :: xs => String c x :: xs
           | [] => [String c ""]
           end
  end.

(** [xs[0]] *)
Definition first (xs : list string) : value :=
  match xs with
  | x :: _ => VStr x
  | [] => VUndefined
  end.

(** The last decimal digit of [n]. *)
Definition digit (n : Z) : ascii := ascii_of_nat (48 + Z.to_nat (n mod 10)).

(** [n] in decimal, on [w] digits, zero-padded. *)
Fixpoint pad (w : nat) (n : Z) : string :=
  match w with
  | O => ""
  | S w' => pad w' (n / 10) ++ String (digit n) ""
  end.

Definition msPerDay : Z := 86400000.

(** Year, month and day of the [z]-th day after 1970-01-01, in the proleptic
    Gregorian calendar. *)
Definition civil_from_days (z : Z) : Z * Z * Z :=
  let z := z + 719468 in
  let era := z / 146097 in
  let doe := z - era * 146097 in
  let yoe := (doe - doe / 1460 + doe / 36524 - doe / 146096) / 365 in
  let doy := doe - (365 * yoe + yoe / 4 - yoe / 100) in
  let mp := (5 * doy + 2) / 153 in
  let d := doy - (153 * mp + 2) / 5 + 1 in
  let m := if mp <? 10 then mp + 3 else mp - 9 in
  let y := yoe + era * 400 in
  (if m <=? 2 then y + 1 else y, m, d).

(** The year of an ISO date: four digits from 0 to 9999, otherwise a sign and
    six digits. *)
Definition iso_year (y : Z) : string :=
  if (0 <=? y) && (y <=? 9999) then pad 4 y
  else (if y <? 0 then "-" else "+") ++ pad 6 (Z.abs y).

(** The calendar date [YYYY-MM-DD] (UTC) of the time [t], in milliseconds
    since the epoch. *)
Definition iso_date (t : Z) : string :=
  let '(y, m, d) := civil_from_days (t / msPerDay) in
  iso_year y ++ "-" ++ pad 2 m ++ "-" ++ pad 2 d.

(** [new Date(t).toISOString()]: [YYYY-MM-DDTHH:mm:ss.sssZ], in UTC. *)
Definition toISOString (t : Z) : string :=
  let ms := t mod msPerDay in
  iso_date t ++ "T" ++ pad 2 (ms / 3600000) ++ ":" ++ pad 2 (ms / 60000 mod 60)
    ++ ":" ++ pad 2 (ms / 1000 mod 60) ++ "." ++ pad 3 (ms mod 1000) ++ "Z".

(** The character [c] does not occur in [s]. *)
Fixpoint lacks (c : ascii) (s : string) : bool :=
  match s with
  | EmptyString => true
  | String a s' => negb (Ascii.eqb a c) && lacks c s'
  end.

(** [`${n}`] for an integer [n]. *)
Definition show (n : Z) : string := pretty n.

(** ** src/lib/supabase.ts *)

Section Code.
Context `{P : Platform}.

(** [localStorage.getItem(key)]: the stored string, or [null]. *)
Definition localStorage_getItem (key : string) : M (option string) :=
  fun w => mkRun (Normal (localStorage w !! key)) w [].

(** [!userString] for a string or [null]. *)
Definition absent (s : option string) : bool :=
  match s with
  | None => true
  | Some s => String.eqb s ""
  end.

(** [JSON.parse(text)]: throws a [SyntaxError] on invalid text; [null] is
    read as the text [null]. *)
Definition JSON_parse_or_throw (text : option string) : M value :=
  match text with
  | Some s =>
      match JSON_parse s with
      | Some v => ret v
      | None => throw (JsError "SyntaxError")
      end
  | None => ret VNull
  end.

Definition console_log (label : string) : M unit := emit (EConsoleLog label).
Definition console_error (label : string) : M unit := emit (EConsoleError label).

(** The variant client set-up has the same function, word for word. *)
Definition getCurrentUser : M value :=
  userString ← localStorage_getItem "aceInApril_user";
  if absent userString then ret VNull
  else
    try_catch (JSON_parse_or_throw userString)
      (fun error => console_error "Error parsing user data:";; ret VNull).

(** The cached user as the wrappers see it. *)
Definition cached_user (w : World) : value :=
  match outcome (getCurrentUser w) with
  | Normal user => user
  | _ => VUndefined
  end.

(** No cached current user: nothing is stored, or what is stored does not
    parse, or parses to a falsy value. *)
Definition no_cached_user (w : World) : Prop := truthy (cached_user w) = false.

(** [user.id]: reading a property of [undefined] or [null] throws a
    [TypeError]; an object gives its field or [undefined]; the other values
    have no [id]. *)
Definition id_of (user : value) : value :=
  match user with
  | VObj fields => default VUndefined (fields !! "id")
  | _ => VUndefined
  end.

Definition nullish (v : value) : bool :=
  match v with
  | VUndefined | VNull => true
  | _ => false
  end.

Definition get_id (user : value) : M value :=
  if nullish user then throw (JsError "TypeError") else ret (id_of user).

Definition uploadFile (file : File) (fileName : string) : M Uploaded :=
  observed (ECallUploadFile file fileName) EUploadFileResolved EUploadFileRejected (
    user ← getCurrentUser;
    (if negb (truthy user) then throw (JsError "No user found") else ret tt);;
    let opts := {| cacheControl := "3600"; upsert := false |} in
    r ← request (EStorageUpload "submissions" fileName file opts)
          (storage_upload "submissions" fileName file opts);
    match error r with
    | Some error =>
        console_error "Upload error details:";;
        throw (JsError ("Failed to upload file: " ++ message error))
    | None =>
        emit (EGetPublicUrl "submissions" fileName);;
        let publicUrl := storage_getPublicUrl "submissions" fileName in
        ret {| path := fileName; url := publicUrl |}
    end).

Definition createSubmission (submission : gmap string value) : M value :=
  observed (ECallCreateSubmission submission) ECreateSubmissionResolved
      ECreateSubmissionRejected (
    user ← getCurrentUser;
    (if negb (truthy user) then throw (JsError "No user found") else ret tt);;
    user_id ← get_id user;
    let rows := [<["user_id" := user_id]> submission] in
    r ← request (ETableInsert "submissions" rows)
          (table_insert_select_single "submissions" rows);
    match error r with
    | Some error =>
        console_error "Submission error:";;
        throw (JsError ("Submission failed: " ++ message error))
    | None => ret (data r)
    end).

(** ** The submission form *)

Definition toast (title description : string) (destructive : bool) : M unit :=
  emit (EToast title description destructive).

Definition navigate (to : string) : M unit := emit (ENavigate to).

Definition setIsSubmitting (b : bool) : M unit :=
  fun w => mkRun (Normal tt) (mkWorld (env w) (localStorage w) b)
             [ESetIsSubmitting b].

(** Reads the clock: [new Date()] and [Date.now()]. *)
Definition now : M Z :=
  fun w =>
    let '(t, env') := Date_now (env w) in
    mkRun (Normal t) (mkWorld env' (localStorage w) (isSubmitting w)) [].

(** Calls the parent's callback. *)
Definition call (onSuccess : Callback) : M unit :=
  request EOnSuccess onSuccess.

(** The form's submit handler.  [user] comes from the auth context, [message]
    and [file] are the form's state, [onSuccess] is the component's prop.  The
    two [await]s run one after the other; a rejected promise is a [throw]. *)
Definition handleSubmit (user : option AuthUser) (message : string)
    (file : option File) (onSuccess : option Callback) : M unit :=
  function_body (
    emit EPreventDefault;;
    match user with
    | None =>
        toast "Not logged in" "You must be logged in to submit." true;;
        navigate "/login";;
        return_
    | Some user =>
        setIsSubmitting true;;
        try_finally
          (try_catch (
             date ← now;
             let today := first (split "T" (toISOString date)) in
             fileUrl ←
               match file with
               | Some file =>
                   try_catch (
                     stamp ← now;
                     let fileName := id user ++ "_" ++ show stamp ++ "_" ++ name file in
                     console_log "Attempting to upload file:";;
                     r ← uploadFile file fileName;
                     console_log "File uploaded successfully, URL:";;
                     ret (VStr (url r)))
                   (fun uploadError =>
                     console_error "Upload error:";;
                     toast "File upload failed"
                       (message_or uploadError "Failed to upload file") true;;
                     setIsSubmitting false;;
                     return_)
               | None => ret VNull
               end;
             createSubmission
               {[ "date" := today; "message" := VStr message; "file_url" := fileUrl ]};;
             toast "Submission successful"
               "Your solution has been submitted successfully." false;;
             match onSuccess with
             | Some onSuccess => call onSuccess
             | None => ret tt
             end;;
             navigate "/")
             (fun error =>
               console_error "Submission error:";;
               toast "Submission failed"
                 (message_or error "An unexpected error occurred") true))
          (setIsSubmitting false)
    end).

End Code.

(** ** Reading traces *)

Definition is_CallUploadFile (e : Event) : bool :=
  match e with ECallUploadFile _ _ => true | _ => false end.

Definition is_CallCreateSubmission (e : Event) : bool :=
  match e with ECallCreateSubmission _ => true | _ => false end.

Definition is_UploadFileRejected (e : Event) : bool :=
  match e with EUploadFileRejected _ => true | _ => false end.

Definition is_CreateSubmissionRejected (e : Event) : bool :=
  match e with ECreateSubmissionRejected _ => true | _ => false end.

Definition is_UploadFileResolved (e : Event) : bool :=
  match e with EUploadFileResolved _ => true | _ => false end.

Definition is_CreateSubmissionResolved (e : Event) : bool :=
  match e with ECreateSubmissionResolved _ => true | _ => false end.

Definition is_StorageUpload (e : Event) : bool :=
  match e with EStorageUpload _ _ _ _ => true | _ => false end.

Definition is_TableInsert (e : Event) : bool :=
  match e with ETableInsert _ _ => true | _ => false end.

Definition is_Navigate (e : Event) : bool :=
  match e with ENavigate _ => true | _ => false end.

(** Some event of the trace is a [p]. *)
Definition occurs (p : Event -> bool) (tr : list Event) : Prop :=
  ∃ e, e ∈ tr ∧ p e = true.

(** Every [q] of the trace comes after some [p]. *)
Definition precedes (p q : Event -> bool) (tr : list Event) : Prop :=
  ∀ i e, tr !! i = Some e → q e = true →
    ∃ j e', (j < i)%nat ∧ tr !! j = Some e' ∧ p e' = true.

(** The same, as a check. *)
Fixpoint precedes_b (p q : Event -> bool) (tr : list Event) : bool :=
  match tr with
  | [] => true
  | e :: tr' => if q e then false else if p e then true else precedes_b p q tr'
  end.

(** [sub] occurs in [s]. *)
Definition includes (s sub : string) : Prop :=
  ∃ before after, s = before ++ sub ++ after.

(** ** The variant client set-up *)

Module Variant.

(** [a || b] for a string or [undefined]. *)
Definition or_else (a : option string) (b : string) : string :=
  match a with
  | Some s => if String.eqb s "" then b else s
  | None => b
  end.

(** [{ data: null, error: { message: 'Supabase configuration error' } }] *)
Definition configuration_error : value :=
  VObj {[ "data" := VNull;
          "error" := VObj {[ "message" := VStr "Supabase configuration error" ]} ]}.

(** The stub client is an object of functions that ignore their arguments. *)
Record StubQuery : Type := mkStubQuery {
  select : list value -> value;
  insert : list value -> value;
  update : list value -> value;
  delete : list value -> value;
  eq : list value -> value
}.

Record StubBucket : Type := mkStubBucket {
  upload : list value -> value;
  getPublicUrl : list value -> value
}.

Record StubClient : Type := mkStubClient {
  from : list value -> StubQuery;
  storage_from : list value -> StubBucket;
  functions_setAuth : list value -> value
}.

Definition stub : StubClient := {|
  from := fun _ => {|
    select := fun _ => configuration_error;
    insert := fun _ => configuration_error;
    update := fun _ => configuration_error;
    delete := fun _ => configuration_error;
    eq := fun _ => configuration_error
  |};
  storage_from := fun _ => {|
    upload := fun _ => configuration_error;
    getPublicUrl := fun _ => VObj {[ "data" := VObj {[ "publicUrl" := VStr "" ]} ]}
  |};
  functions_setAuth := fun _ => VUndefined
|}.

(** The operations of the stub client. *)
Inductive Operation : Type :=
| OpSelect | OpInsert | OpUpdate | OpDelete | OpEq
| OpUpload | OpGetPublicUrl | OpSetAuth.

(** [c.from(target).op(args)], [c.storage.from(target).op(args)] or
    [c.functions.setAuth(args)]. *)
Definition perform (c : StubClient) (op : Operation) (target args : list value) : value :=
  match op with
  | OpSelect => select (from c target) args
  | OpInsert => insert (from c target) args
  | OpUpdate => update (from c target) args
  | OpDelete => delete (from c target) args
  | OpEq => eq (from c target) args
  | OpUpload => upload (storage_from c target) args
  | OpGetPublicUrl => getPublicUrl (storage_from c target) args
  | OpSetAuth => functions_setAuth c args
  end.

Section ClientSetup.
Context `{P : Platform}.

Inductive Client : Type :=
| Sdk (c : SdkClient)
| Stub (c : StubClient).

Definition supabaseUrl (VITE_SUPABASE_URL : option string) : string :=
  or_else VITE_SUPABASE_URL "https://your-project-url.supabase.co".

Definition supabaseAnonKey (VITE_SUPABASE_ANON_KEY : option string) : string :=
  or_else VITE_SUPABASE_ANON_KEY "your-anon-key".

(** A call that either returns or throws, and touches nothing. *)
Definition attempt {A} (r : exn + A) : M A :=
  match r with
  | inl e => throw e
  | inr a => ret a
  end.

Definition createSupabaseClient (VITE_SUPABASE_URL VITE_SUPABASE_ANON_KEY : option string)
    : M Client :=
  let supabaseUrl := supabaseUrl VITE_SUPABASE_URL in
  let supabaseAnonKey := supabaseAnonKey VITE_SUPABASE_ANON_KEY in
  try_catch (
    attempt (match new_URL supabaseUrl with Some e => inl e | None => inr tt end);;
    c ← attempt (createClient supabaseUrl supabaseAnonKey);
    ret (Sdk c))
    (fun error =>
      console_error "Invalid Supabase URL:";;
      ret (Stub stub)).

End ClientSetup.

End Variant.

(** ** The rest of src/lib/supabase.ts *)

(** The [auth] options the module passes to [createClient]. *)
Record AuthOptions : Type := mkAuthOptions {
  autoRefreshToken : bool;
  persistSession : bool;
  detectSessionInUrl : bool
}.

(** What [auth.getSession()] answers: [{ data: { session }, error }]. *)
Record SessionResponse : Type := mkSessionResponse {
  session : value;
  session_error : option PlatformError
}.

(** The SDK calls of the rest of the module: [createClient] with options,
    [auth.getSession()] and [functions.setAuth(token)]. *)
Class AuthPlatform `{P : Platform} : Type := {
  createClient_with : string -> string -> AuthOptions -> exn + SdkClient;
  auth_getSession : Env -> (exn + SessionResponse) * Env;
  sdk_setAuth : value -> Env -> (exn + unit) * Env
}.

Section Module.
Context `{AP : AuthPlatform}.

(** A call into the SDK that shows nothing in the trace: it acts on [Env],
    and what it throws is thrown. *)
Definition sdk_call {B} (f : Env -> (exn + B) * Env) : M B :=
  fun w =>
    let '(res, env') := f (env w) in
    let w' := mkWorld env' (localStorage w) (isSubmitting w) in
    match res with
    | inl e => mkRun (Throw e) w' []
    | inr b => mkRun (Normal b) w' []
    end.

Definition ensureSession : M value :=
  r ← sdk_call auth_getSession;
  match session_error r with
  | Some error =>
      console_error "Error getting session:";;
      ret VNull
  | None => ret (session r)
  end.

(** [a && b]: [a] when it is falsy, otherwise [b]. *)
Definition and_then (a : value) (b : M value) : M value :=
  if truthy a then b else ret a.

Definition addUserToRequest : M unit :=
  user ← getCurrentUser;
  test ← and_then user (get_id user);
  if truthy test then
    token ← get_id user;
    sdk_call (sdk_setAuth token)
  else ret tt.

(** Loading the module: the check of the two environment variables, the
    client, and the call of [addUserToRequest] in its last line. *)
Definition load (VITE_SUPABASE_URL VITE_SUPABASE_ANON_KEY : option string)
    : M SdkClient :=
  (if absent VITE_SUPABASE_URL || absent VITE_SUPABASE_ANON_KEY then
     throw (JsError "Missing Supabase environment variables")
   else ret tt);;
  let supabaseUrl := default "" VITE_SUPABASE_URL in
  let supabaseAnonKey := default "" VITE_SUPABASE_ANON_KEY in
  supabase ← Variant.attempt
    (createClient_with supabaseUrl supabaseAnonKey
       {| autoRefreshToken := true; persistSession := true;
          detectSessionInUrl := true |});
  addUserToRequest;;
  ret supabase.

End Module.

(** ** The rest of the variant client set-up *)

Module VariantModule.
Section Load.
Context `{AP : AuthPlatform}.

(** [supabase.functions.setAuth(token)] on the client the set-up made: the
    SDK's on a real client, the stub's otherwise. *)
Definition setAuth (supabase : Variant.Client) (token : value) : M unit :=
  match supabase with
  | Variant.Sdk _ => sdk_call (sdk_setAuth token)
  | Variant.Stub c =>
      let _ := Variant.functions_setAuth c [token] in
      ret tt
  end.

Definition addUserToRequest (supabase : Variant.Client) : M unit :=
  user ← getCurrentUser;
  test ← and_then user (get_id user);
  if truthy test then
    token ← get_id user;
    setAuth supabase token
  else ret tt.

(** Loading the module: the client, then [addUserToRequest]. *)
Definition load (VITE_SUPABASE_URL VITE_SUPABASE_ANON_KEY : option string)
    : M Variant.Client :=
  supabase ← Variant.createSupabaseClient VITE_SUPABASE_URL VITE_SUPABASE_ANON_KEY;
  addUserToRequest supabase;;
  ret supabase.

End Load.
End VariantModule.

(** ** The rest of the form *)

(** [handleFileChange]: [files] is the input's [FileList] or [null], the
    result the new selected file. *)
Definition handleFileChange (files : option (list File)) (file : option File)
    : option File :=
  match files with
  | Some (first :: _) => Some first
  | _ => file
  end.

(** The platform requests among the events. *)
Definition is_request (e : Event) : bool :=
  match e with
  | EStorageUpload _ _ _ _ | EGetPublicUrl _ _ | ETableInsert _ _ => true
  | _ => false
  end.

Definition is_Toast (e : Event) : bool :=
  match e with EToast _ _ _ => true | _ => false end.

Definition is_OnSuccess (e : Event) : bool :=
  match e with EOnSuccess => true | _ => false end.

(** What [Date.now()] gives for the name of the upload: the second reading of
    the clock in a run of the form. *)
Definition stamp_of `{Platform} (w : World) : Z :=
  (Date_now (Date_now (env w)).2).1.

(** The events end with one or two [setIsSubmitting(false)], and no other
    [setIsSubmitting] comes before. *)
Fixpoint ends_idle (tr : list Event) : bool :=
  match tr with
  | [] => false
  | ESetIsSubmitting b :: tr' =>
      negb b &&
      match tr' with
      | [] | [ESetIsSubmitting false] => true
      | _ => false
      end
  | _ :: tr' => ends_idle tr'
  end.

(** A run that is bracketed by [setIsSubmitting(true)] and
    [setIsSubmitting(false)]. *)
Definition while_submitting (tr : list Event) : bool :=
  match tr with
  | EPreventDefault :: ESetIsSubmitting true :: tr' => ends_idle tr'
  | _ => false
  end.

(** The selected file after a series of change events of the file input. *)
Definition selected (events : list (option (list File))) (file : option File)
    : option File :=
  foldl (fun file files => handleFileChange files file) file events.

(** ** An in-memory platform

    A small instance of [Platform], to run the code on: a clock that ticks, a
    bucket that refuses to overwrite, a table that stores what is inserted,
    and a [JSON.parse] for the texts [null] and [{"id":"..."}]. *)

Module Demo.

Record Backend : Type := mkBackend {
  clock : Z;
  objects : list (string * File);
  rows : list (gmap string value)
}.

Definition quote : string := String "034" "".

(** The part of [s] after the prefix [p]. *)
Fixpoint after (p s : string) : option string :=
  match p, s with
  | EmptyString, _ => Some s
  | String a p', String b s' => if Ascii.eqb a b then after p' s' else None
  | String _ _, EmptyString => None
  end.

(** Reads an identifier up to the closing [quote] and brace. *)
Fixpoint ident (s : string) : option string :=
  match s with
  | EmptyString => None
  | String c s' =>
      if Ascii.eqb c "034" then (if String.eqb s' "}" then Some "" else None)
      else if Ascii.eqb c "\" then None
      else String c <$> ident s'
  end.

Definition parse (s : string) : option value :=
  if String.eqb s "null" then Some VNull
  else
    rest ← after ("{" ++ quote ++ "id" ++ quote ++ ":" ++ quote) s;
    i ← ident rest;
    Some (VObj {[ "id" := VStr i ]}).

Definition has_object (fileName : string) (b : Backend) : bool :=
  existsb (fun o => String.eqb (fst o) fileName) (objects b).

Definition do_upload (bucket fileName : string) (file : File) (opts : UploadOptions)
    (b : Backend) : (exn + Response) * Backend :=
  if has_object fileName b && negb (upsert opts) then
    (inr {| data := VNull;
            error := Some {| message := "The resource already exists" |} |}, b)
  else
    (inr {| data := VObj {[ "path" := VStr fileName ]}; error := None |},
     mkBackend (clock b) ((fileName, file) :: objects b) (rows b)).

Definition do_insert (table : string) (new : list (gmap string value))
    (b : Backend) : (exn + Response) * Backend :=
  match new with
  | [row] =>
      (inr {| data := VObj row; error := None |},
       mkBackend (clock b) (objects b) (rows b ++ [row]))
  | _ =>
      (inr {| data := VNull;
              error := Some {| message := "JSON object requested, multiple (or no) rows returned" |} |},
       mkBackend (clock b) (objects b) (rows b ++ new))
  end.

#[local] Instance platform : Platform := {|
  Env := Backend;
  SdkClient := string * string;
  new_URL := fun u =>
    match after "https://" u with
    | Some _ => None
    | None => Some (JsError "Invalid URL")
    end;
  createClient := fun u k => inr (u, k);
  JSON_parse := parse;
  Date_now := fun b => (clock b, mkBackend (clock b + 1) (objects b) (rows b));
  storage_upload := do_upload;
  storage_getPublicUrl := fun bucket fileName =>
    "https://demo.supabase.co/storage/v1/object/public/" ++ bucket ++ "/" ++ fileName;
  table_insert_select_single := do_insert
|}.

(** The cached user [{"id":"u1"}] under the key the auth flow uses. *)
Definition u1 : string := "{" ++ quote ++ "id" ++ quote ++ ":" ++ quote ++ "u1" ++ quote ++ "}".

Definition world (cached : option string) (t : Z) : World :=
  {| env := mkBackend t [] [];
     localStorage :=
       match cached with
       | Some s => {[ "aceInApril_user" := s ]}
       | None => ∅
       end;
     isSubmitting := false |}.

Definition sol : File := {| name := "sol.txt"; content := "print 42" |}.

End Demo.

(** The in-memory platform with a session and the token [setAuth] sets. *)

Module DemoAuth.

Record State : Type := mkState {
  backend : Demo.Backend;
  token : option value;
  current : SessionResponse
}.

Definition lift {B} (f : Demo.Backend -> B * Demo.Backend) (s : State) : B * State :=
  let '(r, b) := f (backend s) in
  (r, mkState b (token s) (current s)).

#[local] Instance platform : Platform := {|
  Env := State;
  SdkClient := string * string;
  new_URL := new_URL (Platform := Demo.platform);
  createClient := fun u k => inr (u, k);
  JSON_parse := Demo.parse;
  Date_now := lift (Date_now (Platform := Demo.platform));
  storage_upload := fun b n f o => lift (Demo.do_upload b n f o);
  storage_getPublicUrl := storage_getPublicUrl (Platform := Demo.platform);
  table_insert_select_single := fun t r => lift (Demo.do_insert t r)
|}.

#[local] Instance auth : AuthPlatform := {|
  createClient_with := fun u k _ => inr (u, k);
  auth_getSession := fun s => (inr (current s), s);
  sdk_setAuth := fun t s => (inr tt, mkState (backend s) (Some t) (current s))
|}.

Definition world (cached : option string) (t : Z) : World :=
  {| env := mkState (Demo.mkBackend t [] []) None
              {| session := VNull; session_error := None |};
     localStorage :=
       match cached with
       | Some s => {[ "aceInApril_user" := s ]}
       | None => ∅
       end;
     isSubmitting := false |}.

(** A callback that throws. *)
Definition failing : @Callback Demo.platform :=
  fun b => (inl (JsError "callback failed"), b).

(** The cached user [{"id":"u2"}]: another user than [u1]. *)
Definition u2 : string :=
  "{" ++ Demo.quote ++ "id" ++ Demo.quote ++ ":" ++ Demo.quote ++ "u2"
    ++ Demo.quote ++ "}".

(** The cached user [{"id":""}]: a user whose id is empty. *)
Definition anonymous : string :=
  "{" ++ Demo.quote ++ "id" ++ Demo.quote ++ ":" ++ Demo.quote ++ Demo.quote ++ "}".

End DemoAuth.

(** * Properties *)

Section Properties.
Context `{P : Platform}.

(** Symbolic execution: unfold the code, reduce, and split on the innermost
    scrutinee that is stuck, reusing what earlier splits have settled. *)
Ltac exec_monad :=
  unfold function_body, try_finally, try_catch, observed, call, request, now,
    setIsSubmitting, toast, navigate, console_log, console_error, emit,
    localStorage_getItem, return_, throw, mbind, M_bind, bind, mret, M_ret, ret.

Ltac exec_wrappers := unfold uploadFile, createSubmission, get_id; exec_monad.

Ltac exec :=
  unfold handleSubmit, uploadFile, createSubmission, getCurrentUser,
    JSON_parse_or_throw, get_id, absent;
  exec_monad.

(** Reduces what has become a constructor, in the term at hand. *)
Ltac reduce :=
  cbn [outcome final trace env localStorage isSubmitting negb app].

Ltac reuse :=
  repeat match goal with
         | H : ?x = _ |- context [match ?x with _ => _ end] => rewrite H
         end.

Ltac scrutinee t :=
  lazymatch t with
  | context [match ?x with _ => _ end] =>
      lazymatch x with
      | context [match _ with _ => _ end] => scrutinee x
      | _ => x
      end
  end.

Ltac split_innermost :=
  match goal with
  | |- ?G => let x := scrutinee G in destruct x eqn:?
  end.

(** The same, faster, for whole runs of the form. *)
Ltac reduce_all :=
  change (truthy VNull) with false;
  change (nullish VNull) with true;
  lazy beta iota zeta
    delta [outcome final trace env localStorage isSubmitting negb app].

Ltac run := exec; repeat (reduce_all; reuse; try split_innermost).

(** Evaluates a check on a trace that has been computed. *)
Ltac check_trace :=
  cbn [existsb precedes_b orb andb negb is_CallUploadFile
       is_CallCreateSubmission is_UploadFileRejected
       is_UploadFileResolved is_CreateSubmissionResolved
       is_CreateSubmissionRejected is_StorageUpload is_TableInsert is_Navigate].

(** [getCurrentUser] returns the cached user, leaves the world as it is, and
    shows at most a console error. *)
Lemma getCurrentUser_run (w : World) :
  ∃ tr, getCurrentUser w = mkRun (Normal (cached_user w)) w tr ∧
        ∀ e, e ∈ tr → e = EConsoleError "Error parsing user data:".
Proof.
  unfold cached_user. exec.
  repeat (reduce; split_innermost); reduce; eexists; (split; [reflexivity|]).
  all: intros e; rewrite ?elem_of_cons, elem_of_nil; tauto.
Qed.

Lemma existsb_occurs (p : Event -> bool) (tr : list Event) :
  existsb p tr = true ↔ occurs p tr.
Proof.
  unfold occurs. rewrite existsb_exists.
  split; intros (e & He & Hp); exists e; split; auto; by apply list_elem_of_In.
Qed.

Lemma precedes_b_spec (p q : Event -> bool) (tr : list Event) :
  precedes_b p q tr = true → precedes p q tr.
Proof.
  induction tr as [|e0 tr IH]; intros Hb i e Hi Hq.
  - by rewrite lookup_nil in Hi.
  - cbn in Hb. destruct i as [|i]; cbn in Hi.
    + injection Hi as ->. by rewrite Hq in Hb.
    + destruct (q e0); first done.
      destruct (p e0) eqn:Hp.
      * exists 0%nat, e0. split; [lia | done].
      * destruct (IH Hb i e Hi Hq) as (j & e' & Hj & He' & Hp').
        exists (S j), e'. split; [lia | done].
Qed.

Lemma cached_user_absent (w : World) :
  localStorage w !! "aceInApril_user" = None → no_cached_user w.
Proof.
  intros E. unfold no_cached_user, cached_user. exec. by rewrite E.
Qed.

(** C9. [getCurrentUser] always returns and changes nothing: the parsed value
    when the text stored under [aceInApril_user] is valid JSON, [null] when
    nothing is stored and when the text does not parse. *)
Theorem getCurrentUser_total (w : World) :
  JSON_parse_rejects_empty →
  outcome (getCurrentUser w) =
    Normal match localStorage w !! "aceInApril_user" with
           | Some text =>
               match JSON_parse text with
               | Some user => user
               | None => VNull
               end
           | None => VNull
           end
  ∧ final (getCurrentUser w) = w.
Proof.
  unfold JSON_parse_rejects_empty. intros Hempty. exec. reduce.
  destruct (localStorage w !! "aceInApril_user") as [text|]; last done.
  destruct (String.eqb_spec text "") as [->|_].
  - by rewrite Hempty.
  - by destruct (JSON_parse text).
Qed.

Lemma truthy_not_nullish (v : value) : truthy v = true → nullish v = false.
Proof. by destruct v. Qed.

(** A split the form's runs end in when the cached user is there and yet
    [user.id] would throw: there is no such user. *)
Ltac no_such_user :=
  match goal with
  | H1 : truthy ?v = true, H2 : nullish ?v = true |- _ =>
      by rewrite (truthy_not_nullish _ H1) in H2
  end.

(** Settles the readings of the clock in a statement once the run has read
    it. *)
Ltac clock :=
  cbn [fst snd];
  repeat match goal with
         | H : Date_now ?e = _ |- context [Date_now ?e] => rewrite H; cbn [fst snd]
         end.

(** Evaluates the filters and checks of a statement on a computed trace. *)
Ltac sift :=
  cbn [List.filter existsb orb andb negb is_request is_Toast is_Navigate
       is_OnSuccess is_CallUploadFile is_CallCreateSubmission is_UploadFileRejected
       is_UploadFileResolved is_CreateSubmissionResolved
       is_CreateSubmissionRejected is_StorageUpload is_TableInsert].

(** Runs the form once, for a statement that reads its run many times. *)
Ltac run_once :=
  match goal with
  | |- context [handleSubmit ?u ?m ?f ?c ?w] =>
      let r := fresh "r" in
      let Hr := fresh "Hr" in
      remember (handleSubmit u m f c w) as r eqn:Hr; revert Hr
  end;
  run;
  let H := fresh in intros H; injection H as -> -> ->.

Lemma member_filter (p : Event -> bool) (e : Event) (tr : list Event) :
  e ∈ tr → p e = true → e ∈ List.filter p tr.
Proof.
  intros He Hp. apply list_elem_of_In, filter_In. split; [|done].
  by apply list_elem_of_In.
Qed.

(** Splits a membership of a [p] in a computed trace into its cases. *)
Ltac member p H :=
  apply (member_filter p) in H; [|reflexivity];
  cbn [List.filter is_request is_Toast is_Navigate is_OnSuccess
       is_CallUploadFile is_CallCreateSubmission is_UploadFileRejected
       is_UploadFileResolved is_CreateSubmissionResolved
       is_CreateSubmissionRejected is_StorageUpload is_TableInsert] in H;
  rewrite ?elem_of_cons, ?elem_of_nil in H; destruct_or?; simplify_eq.

Lemma wrappers_no_user (w : World) (file : File) (fileName : string)
    (submission : gmap string value) :
  no_cached_user w →
  outcome (uploadFile file fileName w) = Throw (JsError "No user found") ∧
  outcome (createSubmission submission w) = Throw (JsError "No user found").
Proof.
  intros Hno. destruct (getCurrentUser_run w) as (tr & Hu & _).
  split; exec_wrappers; rewrite Hu; reduce; by rewrite Hno.
Qed.

(** C6. Without a cached user, as when nothing is stored under the key, both
    wrappers throw the [Error] [No user found]; with one, an error answered by
    the platform is thrown as an [Error] whose message ends with the
    platform's message. *)
Theorem wrappers_throw_descriptive_errors (w : World) (file : File)
    (fileName : string) (submission : gmap string value) :
  let opts := {| cacheControl := "3600"; upsert := false |} in
  let rows := [<["user_id" := id_of (cached_user w)]> submission] in
  (localStorage w !! "aceInApril_user" = None → no_cached_user w) ∧
  (no_cached_user w →
     outcome (uploadFile file fileName w) = Throw (JsError "No user found") ∧
     outcome (createSubmission submission w) = Throw (JsError "No user found")) ∧
  (∀ d err env',
     ¬ no_cached_user w →
     storage_upload "submissions" fileName file opts (env w)
       = (inr {| data := d; error := Some err |}, env') →
     outcome (uploadFile file fileName w)
       = Throw (JsError ("Failed to upload file: " ++ message err))) ∧
  (∀ d err env',
     ¬ no_cached_user w →
     table_insert_select_single "submissions" rows (env w)
       = (inr {| data := d; error := Some err |}, env') →
     outcome (createSubmission submission w)
       = Throw (JsError ("Submission failed: " ++ message err))).
Proof.
  intros opts rows. subst opts rows.
  destruct (getCurrentUser_run w) as (tr & Hu & _).
  split; [|split; [|split]].
  - apply cached_user_absent.
  - apply wrappers_no_user.
  - intros d err env' Hyes Hreq. apply not_false_is_true in Hyes.
    exec_wrappers. rewrite Hu. reduce. rewrite Hyes. reduce.
    by rewrite Hreq.
  - intros d err env' Hyes Hreq. apply not_false_is_true in Hyes.
    exec_wrappers. rewrite Hu. reduce. rewrite Hyes. reduce.
    rewrite (truthy_not_nullish _ Hyes). reduce. by rewrite Hreq.
Qed.

(** C7. With a cached user, [uploadFile] sends one request: the file, under
    the caller's name, to the bucket [submissions], with [upsert: false], and
    the platform is left as that upload leaves it; when the platform answers
    without error it returns that name as the path and the bucket's public
    URL for it, and it returns nothing else. *)
Theorem uploadFile_stores_under_given_name (w : World) (file : File)
    (fileName : string) :
  ¬ no_cached_user w →
  let opts := {| cacheControl := "3600"; upsert := false |} in
  let stored :=
    {| path := fileName; url := storage_getPublicUrl "submissions" fileName |} in
  let r := uploadFile file fileName w in
  final r =
    mkWorld (storage_upload "submissions" fileName file opts (env w)).2
      (localStorage w) (isSubmitting w) ∧
  EStorageUpload "submissions" fileName file opts ∈ trace r ∧
  (∀ e, e ∈ trace r → is_StorageUpload e = true →
        e = EStorageUpload "submissions" fileName file opts) ∧
  (∀ d env',
     storage_upload "submissions" fileName file opts (env w)
       = (inr {| data := d; error := None |}, env') →
     outcome r = Normal stored) ∧
  (∀ up, outcome r = Normal up → up = stored).
Proof.
  intros Hyes opts stored r. subst opts stored r.
  apply not_false_is_true in Hyes.
  destruct (getCurrentUser_run w) as (tr & Hu & Hquiet).
  assert (Htr : ∀ e, e ∈ tr → is_StorageUpload e = false).
  { by intros e ->%Hquiet. }
  exec_wrappers. rewrite Hu. reduce. rewrite Hyes. reduce.
  destruct (storage_upload _ _ _ _ _) as [[e|[d [err|]]] env'].
  all: reduce; rewrite ?app_nil_r.
  all: split; [done|].
  all: split; [set_solver|].
  all: split;
    [intros e0 He0 Hk; set_unfold in He0; destruct_or!; subst; try done;
     by rewrite Htr in Hk|].
  all: split; [intros d0 env0 [=]; subst; done | by intros up [= <-]].
Qed.

(** C10. The row [createSubmission] sends to the table [submissions] is the
    given record with [user_id] set to the cached user's [id], whatever
    [user_id] the record had; the other fields are the record's. *)
Theorem createSubmission_tags_cached_user (w : World)
    (submission : gmap string value) :
  let row := <["user_id" := id_of (cached_user w)]> submission in
  let r := createSubmission submission w in
  (∀ table rows, ETableInsert table rows ∈ trace r →
     table = "submissions" ∧ rows = [row]) ∧
  (¬ no_cached_user w → ETableInsert "submissions" [row] ∈ trace r) ∧
  row !! "user_id" = Some (id_of (cached_user w)) ∧
  (∀ k, k ≠ "user_id" → row !! k = submission !! k).
Proof.
  intros row r. subst row r.
  destruct (getCurrentUser_run w) as (tr & Hu & Hquiet).
  assert (Htr : ∀ e, e ∈ tr → is_TableInsert e = false).
  { by intros e ->%Hquiet. }
  split; [|split; [|split]].
  - intros table rows. exec_wrappers. rewrite Hu. reduce.
    destruct (truthy (cached_user w)) eqn:Hyes; reduce.
    + rewrite (truthy_not_nullish _ Hyes). reduce.
      destruct (table_insert_select_single _ _ _) as [[e|[d [err|]]] env'];
        reduce; intros He; set_unfold in He; destruct_or!; simplify_eq;
        try done; by apply Htr in He.
    + intros He; set_unfold in He; destruct_or!; simplify_eq;
        try done; by apply Htr in He.
  - intros Hyes. apply not_false_is_true in Hyes.
    exec_wrappers. rewrite Hu. reduce. rewrite Hyes. reduce.
    rewrite (truthy_not_nullish _ Hyes). reduce.
    destruct (table_insert_select_single _ _ _) as [[e|[d [err|]]] env'];
      reduce; set_solver.
  - by rewrite lookup_insert_eq.
  - intros k Hk. by rewrite lookup_insert_ne.
Qed.

(** *** Strings and today's date *)

Lemma append_assoc (a b c : string) : (a ++ b) ++ c = a ++ b ++ c.
Proof.
  induction a as [|x a IH]; first done.
  change ((String x a ++ b) ++ c) with (String x ((a ++ b) ++ c)).
  by rewrite IH.
Qed.

Lemma append_empty (a : string) : a ++ "" = a.
Proof.
  induction a as [|x a IH]; first done.
  change (String x a ++ "") with (String x (a ++ "")).
  by rewrite IH.
Qed.

Lemma includes_prefix (a b : string) : includes (a ++ b) a.
Proof. by exists "", b. Qed.

Lemma includes_suffix (a b : string) : includes (a ++ b) b.
Proof. exists a, "". by rewrite append_empty. Qed.

Lemma includes_append (a b c : string) : includes b c → includes (a ++ b) c.
Proof.
  intros (before & after & ->). exists (a ++ before), after.
  by rewrite append_assoc.
Qed.

Lemma lacks_app (c : ascii) (a b : string) :
  lacks c (a ++ b) = lacks c a && lacks c b.
Proof.
  induction a as [|x a IH]; simpl; first done.
  by rewrite IH, andb_assoc.
Qed.

Lemma split_at_first (sep : ascii) (before rest : string) :
  lacks sep before = true →
  split sep (before ++ String sep "" ++ rest) = before :: split sep rest.
Proof.
  change (String sep "" ++ rest) with (String sep rest).
  induction before as [|x before IH]; simpl.
  - by rewrite Ascii.eqb_refl.
  - intros [Hx Hb]%andb_prop. apply negb_true_iff in Hx.
    by rewrite Hx, (IH Hb).
Qed.

Lemma digit_not_T (n : Z) : Ascii.eqb (digit n) "T" = false.
Proof.
  unfold digit.
  assert (H : (Z.to_nat (n mod 10) < 10)%nat).
  { pose proof (Z.mod_pos_bound n 10). lia. }
  generalize dependent (Z.to_nat (n mod 10)). intros k Hk.
  do 10 (destruct k as [|k]; [done|]); lia.
Qed.

Lemma pad_lacks_T (w : nat) (n : Z) : lacks "T" (pad w n) = true.
Proof.
  revert n. induction w as [|w IH]; intros n; cbn [pad]; first done.
  rewrite lacks_app, IH. cbn. by rewrite digit_not_T.
Qed.

Lemma iso_date_lacks_T (t : Z) : lacks "T" (iso_date t) = true.
Proof.
  unfold iso_date, iso_year.
  destruct (civil_from_days _) as [[y m] d].
  repeat (rewrite lacks_app || rewrite pad_lacks_T).
  destruct ((0 <=? y) && (y <=? 9999)); first by rewrite pad_lacks_T.
  rewrite lacks_app, pad_lacks_T. by destruct (y <? 0).
Qed.

(** From 1970 to the end of the year 9999 the calendar algorithm gives a
    four-digit year, a month and a day. *)
Lemma civil_from_days_bounds (t : Z) :
  0 <= t < 253402300800000 →
  let '(y, m, d) := civil_from_days (t / msPerDay) in
  1970 <= y <= 9999 ∧ 1 <= m <= 12 ∧ 1 <= d <= 31.
Proof.
  intros Ht. unfold civil_from_days, msPerDay.
  set (z := t / 86400000 + 719468).
  assert (Hz : 719468 <= z < 719468 + 2932897)
    by (subst z; Z.div_mod_to_equations; lia).
  clearbody z.
  set (era := z / 146097).
  set (doe := z - era * 146097).
  set (yoe := (doe - doe / 1460 + doe / 36524 - doe / 146096) / 365).
  set (doy := doe - (365 * yoe + yoe / 4 - yoe / 100)).
  set (mp := (5 * doy + 2) / 153).
  assert (Hera : 4 <= era <= 24) by (subst era; Z.div_mod_to_equations; lia).
  assert (Hdoe : 0 <= doe < 146097)
    by (subst doe era; Z.div_mod_to_equations; lia).
  assert (Hyoe : 0 <= yoe <= 399) by (subst yoe; Z.div_mod_to_equations; lia).
  assert (Hdoy : 0 <= doy <= 365)
    by (subst doy yoe; Z.div_mod_to_equations; lia).
  assert (Hmp : 0 <= mp <= 11) by (subst mp; Z.div_mod_to_equations; lia).
  assert (Hd : 1 <= doy - (153 * mp + 2) / 5 + 1 <= 31)
    by (subst mp; Z.div_mod_to_equations; lia).
  destruct (mp <? 10) eqn:Hlt; [apply Z.ltb_lt in Hlt | apply Z.ltb_ge in Hlt].
  - replace (mp + 3 <=? 2) with false by (symmetry; apply Z.leb_gt; lia).
    repeat split; try lia.
    clear - Hz Hera Hlt Hyoe Hdoy Hdoe.
    subst mp doy yoe doe era. Z.div_mod_to_equations. lia.
  - replace (mp - 9 <=? 2) with true by (symmetry; apply Z.leb_le; lia).
    repeat split; try lia.
    + clear - Hz Hera. subst yoe doe era. Z.div_mod_to_equations. lia.
    + clear - Hz Hera Hlt. subst mp doy yoe doe era.
      Z.div_mod_to_equations. lia.
Qed.

(** In that range the date reads [YYYY-MM-DD]. *)
Lemma iso_date_form (t : Z) :
  0 <= t < 253402300800000 →
  ∃ y m d,
    1970 <= y <= 9999 ∧ 1 <= m <= 12 ∧ 1 <= d <= 31 ∧
    iso_date t = pad 4 y ++ "-" ++ pad 2 m ++ "-" ++ pad 2 d.
Proof.
  intros Ht. pose proof (civil_from_days_bounds t Ht) as H.
  unfold iso_date, iso_year.
  destruct (civil_from_days (t / msPerDay)) as [[y m] d].
  destruct H as (Hy & Hm & Hd). exists y, m, d.
  repeat (split; [lia|]).
  replace (0 <=? y) with true by (symmetry; apply Z.leb_le; lia).
  by replace (y <=? 9999) with true by (symmetry; apply Z.leb_le; lia).
Qed.

(** What the form calls [today] is the calendar date of the clock's time. *)
Lemma today_is_iso_date (t : Z) :
  first (split "T" (toISOString t)) = VStr (iso_date t).
Proof.
  unfold toISOString. by rewrite split_at_first by apply iso_date_lacks_T.
Qed.

(** C3, as the code has it.  The form asks the auth context for its user,
    the wrappers ask local storage.  Without a user from the auth context the
    form only shows a toast and goes to the login route: no upload, no
    submission.  With one, and no cached user, the form does call a wrapper
    ([uploadFile] with a file, [createSubmission] without); the wrapper
    throws [No user found] before any request, the form shows the failure and
    does not navigate, and the platform has only been asked the time.
    [createSubmission] throws when no cached user is found and leaves the
    world as it was; no row and no file is sent to the platform without a
    cached user. *)
Theorem no_user_no_submission :
  (∀ message file onSuccess w,
     handleSubmit None message file onSuccess w =
       mkRun (Normal tt) w
         [EPreventDefault;
          EToast "Not logged in" "You must be logged in to submit." true;
          ENavigate "/login"]) ∧
  (∀ submission w,
     no_cached_user w →
     outcome (createSubmission submission w) = Throw (JsError "No user found")) ∧
  (∀ submission w,
     occurs is_TableInsert (trace (createSubmission submission w)) →
     ¬ no_cached_user w) ∧
  (∀ user message file onSuccess w,
     let tr := trace (handleSubmit user message file onSuccess w) in
     occurs is_StorageUpload tr ∨ occurs is_TableInsert tr →
     ¬ no_cached_user w) ∧
  (∀ submission w,
     no_cached_user w →
     final (createSubmission submission w) = w ∧
     List.filter is_request (trace (createSubmission submission w)) = []) ∧
  (∀ user message file onSuccess w,
     no_cached_user w →
     let r := handleSubmit (Some user) message file onSuccess w in
     outcome r = Normal tt ∧
     List.filter is_request (trace r) = [] ∧
     List.filter is_Navigate (trace r) = [] ∧
     List.filter is_CallUploadFile (trace r) =
       match file with
       | Some file =>
           [ECallUploadFile file
              (id user ++ "_" ++ show (stamp_of w) ++ "_" ++ name file)]
       | None => []
       end ∧
     List.filter is_CallCreateSubmission (trace r) =
       match file with
       | Some _ => []
       | None =>
           [ECallCreateSubmission
              {[ "date" := VStr (iso_date (Date_now (env w)).1);
                 "message" := VStr message; "file_url" := VNull ]}]
       end ∧
     List.filter is_Toast (trace r) =
       [EToast match file with
               | Some _ => "File upload failed"
               | None => "Submission failed"
               end "No user found" true] ∧
     final r =
       mkWorld match file with
               | Some _ => (Date_now (Date_now (env w)).2).2
               | None => (Date_now (env w)).2
               end (localStorage w) false).
Proof.
  split; [|split; [|split; [|split; [|split]]]].
  - intros. by exec.
  - intros submission w Hno.
    exact (proj2 (wrappers_no_user w (mkFile "" "") "" submission Hno)).
  - intros submission w. unfold no_cached_user, cached_user.
    run; rewrite <- existsb_occurs; cbn [existsb is_TableInsert orb];
      try done; intros _ Hno; by rewrite Hno in *.
  - intros user message file onSuccess w tr. subst tr.
    unfold no_cached_user, cached_user.
    run; rewrite <- !existsb_occurs; check_trace;
      intros [|] Hno; try done; by rewrite Hno in *.
  - intros submission w. unfold no_cached_user, cached_user.
    run; intros Hno; try done; by rewrite Hno in *.
  - intros user message file onSuccess w Hno r. subst r. revert Hno.
    unfold no_cached_user, cached_user, stamp_of. run_once.
    all: intros Hno; try (by rewrite Hno in * ); try discriminate Hno.
    all: rewrite ?today_is_iso_date; clock; sift; cbn [message_or].
    all: by repeat split.
Qed.


(** C1, as the code has it.  The successful run for the user [u1] of the
    auth context, message [hello] and file [sol.txt]: the file is uploaded
    under a name that contains [u1] and [sol.txt]; [createSubmission] is then
    called with today's date ([iso_date], see [iso_date_form]), the message
    and the URL the upload returned; the row goes to the table with the
    cached user's [id] as [user_id], which is [u1] when the cached user is
    that user; the form then navigates to the root.  The platform is left as
    the upload, the insert and the callback leave it, one after the other,
    and the form is idle again. *)
Theorem successful_submit (content : string) (onSuccess : option Callback)
    (w : World) :
  let user := {| id := "u1" |} in
  let file := {| name := "sol.txt"; content := content |} in
  let r := handleSubmit (Some user) "hello" (Some file) onSuccess w in
  let today := VStr (iso_date (Date_now (env w)).1) in
  let fileName := id user ++ "_" ++ show (stamp_of w) ++ "_" ++ name file in
  let opts := {| cacheControl := "3600"; upsert := false |} in
  let upload :=
    storage_upload "submissions" fileName file opts
      (Date_now (Date_now (env w)).2).2 in
  let publicUrl := storage_getPublicUrl "submissions" fileName in
  let submission :=
    {[ "date" := today; "message" := VStr "hello";
       "file_url" := VStr publicUrl ]} in
  let row := <["user_id" := id_of (cached_user w)]> submission in
  let insert := table_insert_select_single "submissions" [row] upload.2 in
  let after :=
    match onSuccess with
    | Some callback => (callback insert.2).2
    | None => insert.2
    end in
  occurs is_UploadFileResolved (trace r) →
  occurs is_CreateSubmissionResolved (trace r) →
  returns onSuccess →
  includes fileName "u1" ∧ includes fileName "sol.txt" ∧
  ¬ no_cached_user w ∧
  (∀ fields,
     cached_user w = VObj fields → fields !! "id" = Some (VStr "u1") →
     row = <["user_id" := VStr "u1"]> submission) ∧
  (∃ uploaded, upload.1 = inr {| data := uploaded; error := None |}) ∧
  ∃ stored,
    insert.1 = inr {| data := stored; error := None |} ∧
    r = mkRun (Normal tt) (mkWorld after (localStorage w) false)
      ([EPreventDefault;
        ESetIsSubmitting true;
        EConsoleLog "Attempting to upload file:";
        ECallUploadFile file fileName;
        EStorageUpload "submissions" fileName file opts;
        EGetPublicUrl "submissions" fileName;
        EUploadFileResolved {| path := fileName; url := publicUrl |};
        EConsoleLog "File uploaded successfully, URL:";
        ECallCreateSubmission submission;
        ETableInsert "submissions" [row];
        ECreateSubmissionResolved stored;
        EToast "Submission successful"
          "Your solution has been submitted successfully." false]
       ++ match onSuccess with Some _ => [EOnSuccess] | None => [] end
       ++ [ENavigate "/"; ESetIsSubmitting false])%list.
Proof.
  intros user file r today fileName opts upload publicUrl submission row
    insert after.
  subst user file r today fileName opts upload publicUrl submission row
    insert after.
  unfold no_cached_user, cached_user, returns, stamp_of.
  rewrite <- !existsb_occurs. intros Hup Hcreate Hreturns.
  split; [apply includes_prefix|].
  split; [do 3 apply includes_append; apply includes_suffix|].
  revert Hup Hcreate Hreturns. run_once.
  all: sift; intros Hup Hcreate Hreturns; try done.
  all: try match goal with
           | Hc : ?c ?e = (inl _, _) |- _ =>
               destruct (Hreturns c e eq_refl) as [? ?]; congruence
           end.
  all: rewrite ?today_is_iso_date in *; cbn [fst snd id name url] in *.
  all: repeat match goal with
              | H : ?f = (_, _) |- context [?f] => rewrite H; cbn [fst snd]
              end.
  all: repeat match goal with
              | H : error ?r = None |- _ =>
                  destruct r; cbn [error data] in *; subst
              end.
  all: split; [congruence|].
  all: split; [by intros fields -> Hid; cbn [id_of]; rewrite Hid|].
  all: split; [by eexists|].
  all: by eexists.
Qed.

(** C2. When a file is selected, a user's submit calls [uploadFile], every
    call of [createSubmission] comes after a call of [uploadFile], and once
    [uploadFile] has rejected, [createSubmission] is not called and no row is
    sent to the table. *)
Theorem upload_before_submission (user : option AuthUser) (message : string)
    (file : File) (onSuccess : option Callback) (w : World) :
  let tr := trace (handleSubmit user message (Some file) onSuccess w) in
  (is_Some user → occurs is_CallUploadFile tr) ∧
  precedes is_CallUploadFile is_CallCreateSubmission tr ∧
  (occurs is_UploadFileRejected tr →
     ¬ occurs is_CallCreateSubmission tr ∧ ¬ occurs is_TableInsert tr).
Proof.
  intros tr. subst tr.
  run.
  all: split; [|split]; [| apply precedes_b_spec |]; rewrite <- ?existsb_occurs.
  all: check_trace; try done.
  all: try (by intros [? [=]]).
  all: by (intros; split).
Qed.

(** C4. A run of the form in which [uploadFile] or [createSubmission] rejects
    ends normally with [isSubmitting] back to [false]. *)
Theorem failure_returns_to_idle (user : option AuthUser) (message : string)
    (file : option File) (onSuccess : option Callback) (w : World) :
  let r := handleSubmit user message file onSuccess w in
  occurs is_UploadFileRejected (trace r) ∨
    occurs is_CreateSubmissionRejected (trace r) →
  outcome r = Normal tt ∧ isSubmitting (final r) = false.
Proof.
  intros r. subst r. rewrite <- !existsb_occurs.
  run; check_trace; try done.
  all: by intros [[=]|[=]].
Qed.

(** C8, as the code has it. With an invalid connection URL the set-up does
    not throw: it logs the error and returns the stub client.  The stub's
    table operations and its [upload] answer the fixed configuration error;
    [getPublicUrl] answers an empty URL and no error, [setAuth] answers
    nothing.  The stub's operations are values: they reach no platform. *)
Theorem invalid_url_gives_stub (VITE_SUPABASE_URL VITE_SUPABASE_ANON_KEY : option string)
    (w : World) (e : exn) :
  new_URL (Variant.supabaseUrl VITE_SUPABASE_URL) = Some e →
  Variant.createSupabaseClient VITE_SUPABASE_URL VITE_SUPABASE_ANON_KEY w =
    mkRun (Normal (Variant.Stub Variant.stub)) w
      [EConsoleError "Invalid Supabase URL:"] ∧
  (∀ op target args,
     op ≠ Variant.OpGetPublicUrl → op ≠ Variant.OpSetAuth →
     Variant.perform Variant.stub op target args = Variant.configuration_error) ∧
  (∀ target args,
     Variant.perform Variant.stub Variant.OpGetPublicUrl target args =
       VObj {[ "data" := VObj {[ "publicUrl" := VStr "" ]} ]}) ∧
  (∀ target args,
     Variant.perform Variant.stub Variant.OpSetAuth target args = VUndefined).
Proof.
  intros Hurl. split; [|split; [|split]].
  - unfold Variant.createSupabaseClient, Variant.attempt. exec_monad.
    by rewrite Hurl.
  - by intros [] target args.
  - done.
  - done.
Qed.

(** ** More of the wrappers *)

(** X1. What a wrapper asks of the platform.  Without a cached user: nothing,
    and the world is left as it was.  With one, [uploadFile] sends the upload
    and asks for the public URL only once the upload has succeeded;
    [createSubmission] sends one insert. *)
Theorem wrappers_requests (w : World) (file : File) (fileName : string)
    (submission : gmap string value) :
  let opts := {| cacheControl := "3600"; upsert := false |} in
  let up := uploadFile file fileName w in
  let cs := createSubmission submission w in
  let row := <["user_id" := id_of (cached_user w)]> submission in
  (no_cached_user w →
     List.filter is_request (trace up) = [] ∧ final up = w ∧
     List.filter is_request (trace cs) = [] ∧ final cs = w) ∧
  (¬ no_cached_user w →
     List.filter is_request (trace cs) = [ETableInsert "submissions" [row]] ∧
     match outcome up with
     | Normal _ =>
         List.filter is_request (trace up) =
           [EStorageUpload "submissions" fileName file opts;
            EGetPublicUrl "submissions" fileName]
     | _ =>
         List.filter is_request (trace up) =
           [EStorageUpload "submissions" fileName file opts]
     end).
Proof.
  intros opts up cs row. subst opts up cs row.
  unfold no_cached_user, cached_user.
  split; [intros Hno; revert Hno
         | intros Hyes; apply not_false_is_true in Hyes; revert Hyes];
    run; intros H; try done;
    try (by rewrite H in * );
    match goal with
    | H1 : truthy ?v = true, H2 : nullish ?v = true |- _ =>
        by rewrite (truthy_not_nullish _ H1) in H2
    | _ => idtac
    end.
Qed.

(** X2. A wrapper does not wrap what the platform rejects with: the exception
    of a rejected request is thrown as it is.  When the insert is answered
    without error, [createSubmission] returns the answer's data. *)
Theorem wrappers_pass_through (w : World) (file : File) (fileName : string)
    (submission : gmap string value) :
  ¬ no_cached_user w →
  let opts := {| cacheControl := "3600"; upsert := false |} in
  let rows := [<["user_id" := id_of (cached_user w)]> submission] in
  (∀ e env',
     storage_upload "submissions" fileName file opts (env w) = (inl e, env') →
     outcome (uploadFile file fileName w) = Throw e) ∧
  (∀ e env',
     table_insert_select_single "submissions" rows (env w) = (inl e, env') →
     outcome (createSubmission submission w) = Throw e) ∧
  (∀ d env',
     table_insert_select_single "submissions" rows (env w)
       = (inr {| data := d; error := None |}, env') →
     outcome (createSubmission submission w) = Normal d ∧
     env (final (createSubmission submission w)) = env').
Proof.
  intros Hyes opts rows. subst opts rows. apply not_false_is_true in Hyes.
  destruct (getCurrentUser_run w) as (tr & Hu & _).
  split; [|split]; intros ? env' Hreq; exec_wrappers; rewrite Hu; reduce;
    rewrite Hyes; reduce; rewrite ?(truthy_not_nullish _ Hyes); reduce;
    by rewrite Hreq.
Qed.

(** ** The rest of the module *)

Section Auth.
Context `{AP : !AuthPlatform}.

Ltac exec_module :=
  unfold load, VariantModule.load, VariantModule.addUserToRequest,
    VariantModule.setAuth, addUserToRequest, ensureSession, and_then,
    Variant.createSupabaseClient, Variant.attempt, sdk_call, get_id;
  exec_monad.

(** X3. [ensureSession] throws nothing of its own: an error answered by
    [getSession] is logged and gives [null], even when the answer carries a
    session; only a rejected [getSession] is thrown, as it is. *)
Theorem ensureSession_swallows_errors (w : World) :
  let r := ensureSession w in
  (∀ e env', auth_getSession (env w) = (inl e, env') → outcome r = Throw e) ∧
  (∀ s err env',
     auth_getSession (env w)
       = (inr {| session := s; session_error := Some err |}, env') →
     outcome r = Normal VNull ∧
     trace r = [EConsoleError "Error getting session:"]) ∧
  (∀ s env',
     auth_getSession (env w)
       = (inr {| session := s; session_error := None |}, env') →
     outcome r = Normal s ∧ trace r = []) ∧
  localStorage (final r) = localStorage w ∧
  isSubmitting (final r) = isSubmitting w.
Proof.
  intros r. subst r. exec_module. reduce.
  destruct (auth_getSession (env w)) as [[e|[s [err|]]] env'] eqn:E; reduce.
  all: repeat split; try done; intros; by simplify_eq.
Qed.

(** X4. [addUserToRequest] calls [setAuth] exactly when the cached user is
    truthy and has a truthy [id], and then with that [id]; otherwise it does
    nothing.  It throws only what [setAuth] throws: a missing user is no
    error here. *)
Theorem addUserToRequest_sets_truthy_id (w : World) :
  let user := cached_user w in
  let r := addUserToRequest w in
  (truthy user && truthy (id_of user) = false →
     outcome r = Normal tt ∧ final r = w) ∧
  (truthy user && truthy (id_of user) = true →
     env (final r) = (sdk_setAuth (id_of user) (env w)).2 ∧
     outcome r = match (sdk_setAuth (id_of user) (env w)).1 with
                 | inl e => Throw e
                 | inr _ => Normal tt
                 end).
Proof.
  intros user r. subst user r.
  destruct (getCurrentUser_run w) as (tr & Hu & _).
  exec_module. rewrite Hu. reduce.
  destruct (truthy (cached_user w)) eqn:Hyes; reduce.
  - rewrite (truthy_not_nullish _ Hyes). reduce.
    destruct (truthy (id_of (cached_user w))); reduce; split; try done.
    intros _.
    by destruct (sdk_setAuth _ _) as [[e|[]] env'].
  - rewrite Hyes. reduce. by split.
Qed.

(** X5. The token [addUserToRequest] sets and the [user_id]
    [createSubmission] writes afterwards are the same cached [id]. *)
Theorem token_is_submission_user_id (w : World) (submission : gmap string value) :
  truthy (cached_user w) = true →
  truthy (id_of (cached_user w)) = true →
  let token := id_of (cached_user w) in
  let w' := final (addUserToRequest w) in
  env w' = (sdk_setAuth token (env w)).2 ∧
  List.filter is_request (trace (createSubmission submission w')) =
    [ETableInsert "submissions" [<["user_id" := token]> submission]].
Proof.
  intros Hyes Hid token w'. subst token w'.
  revert Hyes Hid. unfold cached_user. exec_module. run.
  all: intros Hyes Hid; try done; try (by rewrite Hyes in * );
    try (by rewrite Hid in * ).
  all: try match goal with
       | H1 : truthy ?v = true, H2 : nullish ?v = true |- _ =>
           by rewrite (truthy_not_nullish _ H1) in H2
       end.
Qed.

(** X6. Only [addUserToRequest] asks for an [id].  For a cached user
    without a truthy [id], [addUserToRequest] does nothing, but
    [createSubmission] still sends the row, with that [id] (or [undefined])
    as [user_id]. *)
Theorem user_without_id (w : World) (submission : gmap string value) :
  ¬ no_cached_user w →
  truthy (id_of (cached_user w)) = false →
  outcome (addUserToRequest w) = Normal tt ∧
  final (addUserToRequest w) = w ∧
  List.filter is_request (trace (createSubmission submission w)) =
    [ETableInsert "submissions"
       [<["user_id" := id_of (cached_user w)]> submission]].
Proof.
  intros Hyes Hid. apply not_false_is_true in Hyes.
  destruct (getCurrentUser_run w) as (tr & Hu & Hquiet).
  assert (Htr : List.filter is_request tr = []).
  { clear Hu. induction tr as [|e tr IH]; first done.
    rewrite (Hquiet e) by (left). cbn. apply IH.
    intros e' He'. apply Hquiet. by right. }
  split; [|split].
  1,2: exec_module; rewrite Hu; reduce; rewrite Hyes; reduce;
       rewrite (truthy_not_nullish _ Hyes); reduce; by rewrite Hid.
  exec_wrappers. rewrite Hu. reduce. rewrite Hyes. reduce.
  rewrite (truthy_not_nullish _ Hyes). reduce.
  destruct (table_insert_select_single _ _ _) as [[e|[d [err|]]] env'];
    reduce; cbn [error]; reduce; cbn [List.filter is_request];
    rewrite ?List.filter_app, ?Htr; by cbn [List.filter is_request app].
Qed.

(** X7. Loading the module without its configuration throws
    [Missing Supabase environment variables] before anything else is done:
    no client, no look at the cached user.  The variant set-up, given the
    same configuration, returns a client. *)
Theorem load_requires_configuration
    (VITE_SUPABASE_URL VITE_SUPABASE_ANON_KEY : option string) (w : World) :
  absent VITE_SUPABASE_URL || absent VITE_SUPABASE_ANON_KEY = true →
  load VITE_SUPABASE_URL VITE_SUPABASE_ANON_KEY w =
    mkRun (Throw (JsError "Missing Supabase environment variables")) w [] ∧
  ∃ client,
    outcome (Variant.createSupabaseClient VITE_SUPABASE_URL
               VITE_SUPABASE_ANON_KEY w) = Normal client.
Proof.
  intros Hmissing. split.
  - exec_module. by rewrite Hmissing.
  - exec_module.
    destruct (new_URL _); reduce; eauto.
    destruct (createClient _ _); reduce; eauto.
Qed.

(** X8. With its configuration the module loads as far as the SDK lets it:
    it throws what [createClient] throws, else what [setAuth] throws, else it
    returns the client, which was made with the three [auth] options on. *)
Theorem load_with_configuration (supabaseUrl supabaseAnonKey : string)
    (w : World) :
  absent (Some supabaseUrl) || absent (Some supabaseAnonKey) = false →
  let made :=
    createClient_with supabaseUrl supabaseAnonKey
      {| autoRefreshToken := true; persistSession := true;
         detectSessionInUrl := true |} in
  outcome (load (Some supabaseUrl) (Some supabaseAnonKey) w) =
    match made with
    | inl e => Throw e
    | inr supabase =>
        match outcome (addUserToRequest w) with
        | Throw e => Throw e
        | _ => Normal supabase
        end
    end.
Proof.
  intros Hgiven made. subst made.
  unfold load. exec_monad. rewrite Hgiven. cbn [default from_option].
  unfold Variant.attempt. exec_monad.
  destruct (createClient_with _ _ _) as [e|supabase]; reduce; first done.
  destruct (addUserToRequest w) as [[[]| |e] w1 t1] eqn:E; try done.
  revert E. exec_module. run; by intros [=].
Qed.

(** X9. The variant set-up never throws, whatever the configuration: it
    returns the SDK's client when the URL is valid and [createClient]
    returns, and the stub, after a console error, in every other case; the
    world is left as it was. *)
Theorem createSupabaseClient_never_throws
    (VITE_SUPABASE_URL VITE_SUPABASE_ANON_KEY : option string) (w : World) :
  let url := Variant.supabaseUrl VITE_SUPABASE_URL in
  let key := Variant.supabaseAnonKey VITE_SUPABASE_ANON_KEY in
  Variant.createSupabaseClient VITE_SUPABASE_URL VITE_SUPABASE_ANON_KEY w =
    match new_URL url, createClient url key with
    | None, inr supabase => mkRun (Normal (Variant.Sdk supabase)) w []
    | _, _ =>
        mkRun (Normal (Variant.Stub Variant.stub)) w
          [EConsoleError "Invalid Supabase URL:"]
    end.
Proof.
  intros url key. subst url key. exec_module.
  destruct (new_URL _); reduce; first done.
  by destruct (createClient _ _).
Qed.

(** X10. With an invalid URL the whole variant module loads without throwing
    and without touching the platform, cached user or not: the stub's
    [setAuth] does nothing. *)
Theorem variant_load_with_invalid_url
    (VITE_SUPABASE_URL VITE_SUPABASE_ANON_KEY : option string) (w : World)
    (e : exn) :
  new_URL (Variant.supabaseUrl VITE_SUPABASE_URL) = Some e →
  outcome (VariantModule.load VITE_SUPABASE_URL VITE_SUPABASE_ANON_KEY w)
    = Normal (Variant.Stub Variant.stub) ∧
  final (VariantModule.load VITE_SUPABASE_URL VITE_SUPABASE_ANON_KEY w) = w.
Proof.
  intros Hurl.
  destruct (getCurrentUser_run w) as (tr & Hu & _).
  exec_module. rewrite Hurl. reduce. rewrite Hu. reduce.
  destruct (truthy (cached_user w)) eqn:Hyes; reduce.
  - rewrite (truthy_not_nullish _ Hyes). reduce.
    by destruct (truthy (id_of (cached_user w))).
  - by rewrite Hyes.
Qed.

End Auth.

(** ** The rest of the form *)

(** X11. Once a file is selected, no change event of the file input clears
    the selection: an event without files keeps the file, an event with files
    selects the first of them. *)
Theorem selection_is_never_cleared (events : list (option (list File)))
    (file : option File) :
  (is_Some file → is_Some (selected events file)) ∧
  (∀ f fs, selected (events ++ [Some (f :: fs)]) file = Some f) ∧
  selected (events ++ [None]) file = selected events file ∧
  selected (events ++ [Some []]) file = selected events file.
Proof.
  unfold selected. split; [|split; [|split]].
  - revert file.
    induction events as [|[[|f fs]|] events IH]; intros file Hfile;
      cbn; try done; by apply IH.
  - intros f fs. by rewrite foldl_app.
  - by rewrite foldl_app.
  - by rewrite foldl_app.
Qed.

(** X12. [handleSubmit] never throws: whatever the wrappers or the callback
    throw is caught.  Without a user it leaves the world as it was; with one
    it ends with [isSubmitting] back to [false], also when the callback
    throws. *)
Theorem handleSubmit_never_throws (user : option AuthUser) (message : string)
    (file : option File) (onSuccess : option Callback) (w : World) :
  let r := handleSubmit user message file onSuccess w in
  outcome r = Normal tt ∧
  localStorage (final r) = localStorage w ∧
  match user with
  | None => final r = w
  | Some _ => isSubmitting (final r) = false
  end.
Proof.
  intros r. subst r. run; done.
Qed.

(** X13. All a submit asks of the platform, in order: nothing; or the upload
    alone; or the upload, its public URL and the insert; or, without a file,
    the insert alone.  Nothing is asked twice, and nothing is asked after a
    failure. *)
Theorem handleSubmit_requests (user : option AuthUser) (message : string)
    (file : option File) (onSuccess : option Callback) (w : World) :
  let requests :=
    List.filter is_request (trace (handleSubmit user message file onSuccess w)) in
  let today := VStr (iso_date (Date_now (env w)).1) in
  let row file_url :=
    <["user_id" := id_of (cached_user w)]>
      {[ "date" := today; "message" := VStr message; "file_url" := file_url ]} in
  match user, file with
  | None, _ => requests = []
  | Some _, None =>
      requests = [] ∨ requests = [ETableInsert "submissions" [row VNull]]
  | Some user, Some file =>
      let fileName := id user ++ "_" ++ show (stamp_of w) ++ "_" ++ name file in
      let opts := {| cacheControl := "3600"; upsert := false |} in
      let publicUrl := storage_getPublicUrl "submissions" fileName in
      requests = [] ∨
      requests = [EStorageUpload "submissions" fileName file opts] ∨
      requests = [EStorageUpload "submissions" fileName file opts;
                  EGetPublicUrl "submissions" fileName;
                  ETableInsert "submissions" [row (VStr publicUrl)]]
  end.
Proof.
  intros requests today row. subst requests today row.
  unfold stamp_of, cached_user. run.
  all: try no_such_user.
  all: rewrite ?today_is_iso_date; clock; cbn [List.filter is_request url].
  all: auto.
Qed.

Lemma precedes_b_last (A B : Prop) (p q : Event -> bool) (tr : list Event) :
  A ∧ B ∧ precedes_b p q tr = true → A ∧ B ∧ precedes p q tr.
Proof.
  intros (HA & HB & Hb). auto using precedes_b_spec.
Qed.

(** X14. Where a submit navigates.  Without a user: to the login route.
    With one: to the root, once, and only after [createSubmission] has
    resolved, that is, every navigation of the trace comes after the event of
    the resolution; a run in which a wrapper rejects does not navigate, so the
    user stays on the form. *)
Theorem handleSubmit_navigation (user : option AuthUser) (message : string)
    (file : option File) (onSuccess : option Callback) (w : World) :
  let tr := trace (handleSubmit user message file onSuccess w) in
  let navigations := List.filter is_Navigate tr in
  match user with
  | None => navigations = [ENavigate "/login"]
  | Some _ =>
      (navigations = [] ∨
       navigations = [ENavigate "/"] ∧ occurs is_CreateSubmissionResolved tr) ∧
      (occurs is_UploadFileRejected tr ∨ occurs is_CreateSubmissionRejected tr →
       navigations = []) ∧
      precedes is_CreateSubmissionResolved is_Navigate tr
  end.
Proof.
  intros tr navigations. subst tr navigations.
  destruct user as [user|]; rewrite <- ?existsb_occurs;
    try apply precedes_b_last; run_once.
  all: sift; check_trace.
  all: try done.
  all: split; [auto | split; [by intros [|] | done]].
Qed.

(** X15. What a submit tells the user.  Every run shows a toast, and the
    toasts of a run are one of five lists: the login notice without a user;
    for a rejected upload or a rejected [createSubmission] one destructive
    toast with the message of what was thrown; after a resolved
    [createSubmission] the success toast alone, when there is no callback or
    the callback returned, or the success toast followed by a failure toast
    with the message of what the callback threw. *)
Theorem handleSubmit_toasts (user : option AuthUser) (message : string)
    (file : option File) (onSuccess : option Callback) (w : World) :
  let tr := trace (handleSubmit user message file onSuccess w) in
  let toasts := List.filter is_Toast tr in
  let login := EToast "Not logged in" "You must be logged in to submit." true in
  let success :=
    EToast "Submission successful"
      "Your solution has been submitted successfully." false in
  let upload_failed e :=
    EToast "File upload failed" (message_or e "Failed to upload file") true in
  let failed e :=
    EToast "Submission failed"
      (message_or e "An unexpected error occurred") true in
  (user = None → toasts = [login]) ∧
  (∀ e, EUploadFileRejected e ∈ tr → toasts = [upload_failed e]) ∧
  (∀ e, ECreateSubmissionRejected e ∈ tr → toasts = [failed e]) ∧
  (occurs is_CreateSubmissionResolved tr →
     toasts = [success] ∨
     ∃ callback e e1 e2,
       onSuccess = Some callback ∧ callback e1 = (inl e, e2) ∧
       toasts = [success; failed e] ∧ EOnSuccess ∈ tr) ∧
  (user = None ∧ toasts = [login] ∨
   (∃ e, List.filter is_UploadFileRejected tr = [EUploadFileRejected e] ∧
         toasts = [upload_failed e]) ∨
   (∃ e, List.filter is_CreateSubmissionRejected tr
           = [ECreateSubmissionRejected e] ∧
         toasts = [failed e]) ∨
   (occurs is_CreateSubmissionResolved tr ∧ toasts = [success] ∧
    ∀ callback, onSuccess = Some callback →
      ∃ e1 e2, callback e1 = (inr tt, e2)) ∨
   (occurs is_CreateSubmissionResolved tr ∧
    ∃ callback e e1 e2,
      onSuccess = Some callback ∧ callback e1 = (inl e, e2) ∧
      toasts = [success; failed e])).
Proof.
  intros tr toasts login success upload_failed failed.
  subst tr toasts login success upload_failed failed.
  rewrite <- !existsb_occurs. run_once.
  all: sift.
  all: repeat match goal with u : () |- _ => destruct u end.
  all: split; [done|].
  all: split;
    [intros thrown Hthrown; by member is_UploadFileRejected Hthrown|].
  all: split;
    [intros thrown Hthrown; by member is_CreateSubmissionRejected Hthrown|].
  all: split;
    [ first [ done
            | by intros _; left
            | intros _; right; do 4 eexists;
              do 3 (split; [done|]); rewrite !elem_of_cons; tauto ]
    | ].
  all: first
         [ by left
         | by right; left; eexists
         | by right; right; left; eexists
         | right; right; right; left;
           do 2 (split; [done|]); intros ? [= <-]; by eauto
         | right; right; right; left;
           do 2 (split; [done|]); by intros ? [=]
         | right; right; right; right; split; [done|];
           do 4 eexists; by repeat split ].
Qed.

(** X16. When the callback throws, the submission is stored all the same: the
    row was sent and [createSubmission] had resolved, but the run shows the
    failure toast after the success toast and does not navigate. *)
Theorem callback_throws_after_insert (user : option AuthUser) (message : string)
    (file : option File) (onSuccess : option Callback) (w : World) :
  let tr := trace (handleSubmit user message file onSuccess w) in
  occurs is_OnSuccess tr →
  ¬ occurs is_Navigate tr →
  occurs is_TableInsert tr ∧
  occurs is_CreateSubmissionResolved tr ∧
  ∃ e, List.filter is_Toast tr =
         [EToast "Submission successful"
            "Your solution has been submitted successfully." false;
          EToast "Submission failed"
            (message_or e "An unexpected error occurred") true].
Proof.
  intros tr. subst tr. rewrite <- !existsb_occurs. run_once.
  all: sift.
  all: intros Hcalled Hstays; try done.
  all: eauto.
Qed.

(** The arguments of the wrapper calls of a run of the form. *)
Lemma handleSubmit_calls (user : option AuthUser) (message : string)
    (file : option File) (onSuccess : option Callback) (w : World) :
  let tr := trace (handleSubmit user message file onSuccess w) in
  (∀ f fileName,
     ECallUploadFile f fileName ∈ tr →
     ∃ u, user = Some u ∧ file = Some f ∧
          fileName = id u ++ "_" ++ show (stamp_of w) ++ "_" ++ name f) ∧
  (∀ submission,
     ECallCreateSubmission submission ∈ tr →
     submission !! "date" = Some (VStr (iso_date (Date_now (env w)).1)) ∧
     submission !! "message" = Some (VStr message)).
Proof.
  intros tr. subst tr. unfold stamp_of. run_once.
  all: rewrite ?today_is_iso_date; clock.
  all: split;
    [intros f' n' Hcall; member is_CallUploadFile Hcall; eauto
    |intros s' Hcall; member is_CallCreateSubmission Hcall].
  all: by rewrite ?lookup_insert_eq, ?lookup_insert_ne by done.
Qed.

(** X17. From 1970 to the end of the year 9999 of the clock, the date the
    form passes to [createSubmission] reads [YYYY-MM-DD], with a month from
    01 to 12 and a day from 01 to 31, in UTC. *)
Theorem submission_date_format (user : option AuthUser) (message : string)
    (file : option File) (onSuccess : option Callback) (w : World)
    (submission : gmap string value) :
  0 <= (Date_now (env w)).1 < 253402300800000 →
  ECallCreateSubmission submission
    ∈ trace (handleSubmit user message file onSuccess w) →
  ∃ y m d,
    1970 <= y <= 9999 ∧ 1 <= m <= 12 ∧ 1 <= d <= 31 ∧
    submission !! "date" =
      Some (VStr (pad 4 y ++ "-" ++ pad 2 m ++ "-" ++ pad 2 d)).
Proof.
  intros Hclock Hcall.
  apply handleSubmit_calls in Hcall as [Hdate _].
  destruct (iso_date_form _ Hclock) as (y & m & d & Hy & Hm & Hd & Hform).
  exists y, m, d. by rewrite Hdate, Hform.
Qed.

Lemma length_append (a b : string) :
  String.length (a ++ b) = (String.length a + String.length b)%nat.
Proof.
  induction a as [|x a IH]; first done.
  change (String x a ++ b) with (String x (a ++ b)). cbn. by rewrite IH.
Qed.

Lemma append_cancel_l (a x y : string) : a ++ x = a ++ y → x = y.
Proof.
  induction a as [|c a IH]; first done.
  change (String c a ++ x) with (String c (a ++ x)).
  change (String c a ++ y) with (String c (a ++ y)).
  intros [= H]. by apply IH.
Qed.

Lemma append_cancel_r (s x y : string) : x ++ s = y ++ s → x = y.
Proof.
  revert y. induction x as [|c x IH]; intros [|d y] H.
  - done.
  - apply (f_equal String.length) in H.
    rewrite !length_append in H. cbn in H. lia.
  - apply (f_equal String.length) in H.
    rewrite !length_append in H. cbn in H. lia.
  - change (String c x ++ s) with (String c (x ++ s)) in H.
    change (String d y ++ s) with (String d (y ++ s)) in H.
    injection H as -> H. f_equal. by apply IH.
Qed.

(** X18. Two submits of the same user with the same file upload under the
    same name exactly when [Date.now()] gave the same time: the time in the
    name is what keeps the uploads of a user apart. *)
Theorem upload_names_differ_by_time (user : AuthUser) (file : File)
    (message1 message2 : string) (onSuccess1 onSuccess2 : option Callback)
    (w1 w2 : World) (file1 file2 : File) (fileName1 fileName2 : string) :
  ECallUploadFile file1 fileName1
    ∈ trace (handleSubmit (Some user) message1 (Some file) onSuccess1 w1) →
  ECallUploadFile file2 fileName2
    ∈ trace (handleSubmit (Some user) message2 (Some file) onSuccess2 w2) →
  fileName1 = fileName2 ↔ stamp_of w1 = stamp_of w2.
Proof.
  intros (u1 & [= <-] & [= <-] & ->)%handleSubmit_calls
         (u2 & [= <-] & [= <-] & ->)%handleSubmit_calls.
  split; [|by intros ->].
  intros H%append_cancel_l%append_cancel_l%append_cancel_r.
  by apply (inj pretty) in H.
Qed.

(** X19. Everything a user's submit does lies between [setIsSubmitting(true)]
    and [setIsSubmitting(false)]: the run starts with [preventDefault] and
    [setIsSubmitting(true)], calls [setIsSubmitting] again only to end, and
    ends with [setIsSubmitting(false)], twice after a rejected upload. *)
Theorem handleSubmit_while_submitting (user : AuthUser) (message : string)
    (file : option File) (onSuccess : option Callback) (w : World) :
  while_submitting (trace (handleSubmit (Some user) message file onSuccess w))
    = true.
Proof.
  run; done.
Qed.

End Properties.

(** C8, as stated, fails: the stub's [getPublicUrl] does not answer the
    configuration error. *)
Lemma stub_getPublicUrl_is_no_error :
  Variant.perform Variant.stub Variant.OpGetPublicUrl
    [VStr "submissions"] [VStr "sol.txt"]
  = VObj {[ "data" := VObj {[ "publicUrl" := VStr "" ]} ]}
  ∧ Variant.perform Variant.stub Variant.OpGetPublicUrl
      [VStr "submissions"] [VStr "sol.txt"]
    ≠ Variant.configuration_error.
Proof.
  split; first done.
  intros H.
  assert (E : ∀ v, v = Variant.configuration_error →
                match v with VObj o => o !! "error" | _ => None end ≠ None)
    by (by intros v ->).
  by apply E in H.
Qed.

(** ** The theorems at work on the in-memory platform *)

#[local] Existing Instance Demo.platform.

(** C1, as stated, fails: the form names the file after the user of the auth
    context, the wrapper tags the row with the cached user.  With the
    authenticated user [u1] and the cached user [u2] the run succeeds and
    navigates to ["/"], and the row is stored with [user_id] ["u2"]. *)
Lemma successful_submit_other_cached_user :
  let w := Demo.world (Some DemoAuth.u2) 1700000000000 in
  let r := handleSubmit (Some {| id := "u1" |}) "hello" (Some Demo.sol) None w in
  occurs is_UploadFileResolved (trace r) ∧
  occurs is_CreateSubmissionResolved (trace r) ∧
  List.filter is_CallUploadFile (trace r)
    = [ECallUploadFile Demo.sol "u1_1700000000001_sol.txt"] ∧
  List.filter is_Navigate (trace r) = [ENavigate "/"] ∧
  outcome r = Normal tt ∧
  Demo.rows (env (final r))
    = [ {[ "user_id" := VStr "u2";
           "date" := VStr "2023-11-14";
           "message" := VStr "hello";
           "file_url" := VStr "https://demo.supabase.co/storage/v1/object/public/submissions/u1_1700000000001_sol.txt" ]} ] ∧
  Demo.rows (env (final r))
    ≠ [ {[ "user_id" := VStr "u1";
           "date" := VStr "2023-11-14";
           "message" := VStr "hello";
           "file_url" := VStr "https://demo.supabase.co/storage/v1/object/public/submissions/u1_1700000000001_sol.txt" ]} ].
Proof.
  intros w r.
  assert (Hrows : Demo.rows (env (final r))
            = [ {[ "user_id" := VStr "u2";
                   "date" := VStr "2023-11-14";
                   "message" := VStr "hello";
                   "file_url" := VStr "https://demo.supabase.co/storage/v1/object/public/submissions/u1_1700000000001_sol.txt" ]} ])
    by (vm_compute; reflexivity).
  split; [apply existsb_occurs; vm_compute; reflexivity|].
  split; [apply existsb_occurs; vm_compute; reflexivity|].
  split; [vm_compute; reflexivity|].
  split; [vm_compute; reflexivity|].
  split; [vm_compute; reflexivity|].
  split; [exact Hrows|].
  rewrite Hrows. intros E.
  assert (Hid : ∀ stored : list (gmap string value),
            stored = [ {[ "user_id" := VStr "u1";
                          "date" := VStr "2023-11-14";
                          "message" := VStr "hello";
                          "file_url" := VStr "https://demo.supabase.co/storage/v1/object/public/submissions/u1_1700000000001_sol.txt" ]} ] →
            (stored !! 0%nat) ≫= (.!! "user_id") = Some (VStr "u1"))
    by (by intros stored ->).
  apply Hid in E. discriminate E.
Qed.

(** C3, as stated, fails: the form checks the user of the auth context, not
    the cached user.  With an authenticated user and nothing cached,
    [uploadFile] is called, it throws before any request, and the run shows
    the failure toast and does not navigate. *)
Lemma no_cached_user_no_redirect :
  let w := Demo.world None 1700000000000 in
  let r := handleSubmit (Some {| id := "u1" |}) "hello" (Some Demo.sol) None w in
  let r' := handleSubmit (Some {| id := "u1" |}) "hello" None None w in
  no_cached_user w ∧
  List.filter is_CallUploadFile (trace r)
    = [ECallUploadFile Demo.sol "u1_1700000000001_sol.txt"] ∧
  List.filter is_Navigate (trace r) = [] ∧
  List.filter is_Toast (trace r)
    = [EToast "File upload failed" "No user found" true] ∧
  List.filter is_CallCreateSubmission (trace r')
    = [ECallCreateSubmission {[ "date" := VStr "2023-11-14";
                                "message" := VStr "hello";
                                "file_url" := VNull ]}] ∧
  List.filter is_Navigate (trace r') = [] ∧
  List.filter is_Toast (trace r')
    = [EToast "Submission failed" "No user found" true].
Proof.
  intros w r r'.
  repeat split; vm_compute; reflexivity.
Qed.

Lemma successful_submit_witness :
  let w := Demo.world (Some Demo.u1) 1700000000000 in
  let r := handleSubmit (Some {| id := "u1" |}) "hello" (Some Demo.sol) None w in
  occurs is_UploadFileResolved (trace r) ∧
  occurs is_CreateSubmissionResolved (trace r) ∧
  returns None ∧
  ¬ no_cached_user w ∧
  List.filter is_Navigate (trace r) = [ENavigate "/"] ∧
  Demo.objects (env (final r)) = [("u1_1700000000001_sol.txt", Demo.sol)] ∧
  Demo.rows (env (final r))
    = [ {[ "user_id" := VStr "u1";
           "date" := VStr "2023-11-14";
           "message" := VStr "hello";
           "file_url" := VStr "https://demo.supabase.co/storage/v1/object/public/submissions/u1_1700000000001_sol.txt" ]} ].
Proof.
  intros w r.
  assert (Hup : occurs is_UploadFileResolved (trace r))
    by (apply existsb_occurs; vm_compute; reflexivity).
  assert (Hcreate : occurs is_CreateSubmissionResolved (trace r))
    by (apply existsb_occurs; vm_compute; reflexivity).
  assert (Hreturns : returns None)
    by (intros callback e H; discriminate H).
  do 3 (split; [assumption|]).
  destruct (successful_submit (P := Demo.platform) "print 42" None w
              Hup Hcreate Hreturns)
    as (_ & _ & Hcached & _ & _ & stored & _ & Hrun).
  split; [exact Hcached|].
  unfold r, Demo.sol. rewrite Hrun.
  repeat split; vm_compute; reflexivity.
Defined.

Lemma failure_returns_to_idle_witness :
  let w := Demo.world None 1700000000000 in
  let r := handleSubmit (Some {| id := "u1" |}) "hello" (Some Demo.sol) None w in
  occurs is_UploadFileRejected (trace r) ∧
  outcome r = Normal tt ∧ isSubmitting (final r) = false.
Proof.
  intros w r.
  assert (H : occurs is_UploadFileRejected (trace r))
    by (apply existsb_occurs; vm_compute; reflexivity).
  split; [exact H|].
  exact (failure_returns_to_idle (P := Demo.platform) (Some {| id := "u1" |})
           "hello" (Some Demo.sol) None w (or_introl H)).
Defined.

Lemma uploadFile_stores_under_given_name_witness :
  let w := Demo.world (Some Demo.u1) 1700000000000 in
  let r := uploadFile Demo.sol "u1_1700000000001_sol.txt" w in
  ¬ no_cached_user w ∧
  Demo.objects (env (final r)) = [("u1_1700000000001_sol.txt", Demo.sol)] ∧
  outcome r =
    Normal {| path := "u1_1700000000001_sol.txt";
              url := storage_getPublicUrl "submissions" "u1_1700000000001_sol.txt" |}.
Proof.
  intros w r.
  assert (H : ¬ no_cached_user w)
    by (unfold no_cached_user; vm_compute; intros E; discriminate E).
  split; [exact H|].
  destruct (uploadFile_stores_under_given_name (P := Demo.platform) w Demo.sol
              "u1_1700000000001_sol.txt" H) as (Hfinal & _ & _ & Hok & _).
  split.
  - fold r in Hfinal. rewrite Hfinal. vm_compute. reflexivity.
  - eapply Hok. vm_compute; reflexivity.
Defined.

Lemma invalid_url_gives_stub_witness :
  let w := Demo.world None 1700000000000 in
  new_URL (Variant.supabaseUrl (Some "not a url")) = Some (JsError "Invalid URL") ∧
  Variant.createSupabaseClient (Some "not a url") None w =
    mkRun (Normal (Variant.Stub Variant.stub)) w
      [EConsoleError "Invalid Supabase URL:"].
Proof.
  intros w.
  assert (H : new_URL (Variant.supabaseUrl (Some "not a url"))
              = Some (JsError "Invalid URL")) by reflexivity.
  split; [exact H|].
  exact (proj1 (invalid_url_gives_stub (P := Demo.platform) _ None w _ H)).
Defined.

Lemma getCurrentUser_total_witness :
  let w := Demo.world (Some Demo.u1) 1700000000000 in
  JSON_parse_rejects_empty ∧
  outcome (getCurrentUser w) = Normal (VObj {[ "id" := VStr "u1" ]}).
Proof.
  intros w.
  assert (H : JSON_parse_rejects_empty) by reflexivity.
  split; [exact H|].
  exact (proj1 (getCurrentUser_total (P := Demo.platform) w H)).
Defined.

(** A second upload under the same name is refused by the bucket, and
    [uploadFile] says so. *)
Example second_upload_is_refused :
  let w := Demo.world (Some Demo.u1) 1700000000000 in
  let w' := final (uploadFile Demo.sol "u1_1700000000001_sol.txt" w) in
  outcome (uploadFile Demo.sol "u1_1700000000001_sol.txt" w') =
    Throw (JsError "Failed to upload file: The resource already exists").
Proof. vm_compute. reflexivity. Qed.

(** A submit stores one file and one row. *)
Example submit_stores_file_and_row :
  let w := Demo.world (Some Demo.u1) 1700000000000 in
  let r := handleSubmit (Some {| id := "u1" |}) "hello" (Some Demo.sol) None w in
  Demo.objects (env (final r)) = [("u1_1700000000001_sol.txt", Demo.sol)] ∧
  Demo.rows (env (final r)) =
    [{[ "date" := VStr "2023-11-14"; "message" := VStr "hello";
        "file_url" := VStr "https://demo.supabase.co/storage/v1/object/public/submissions/u1_1700000000001_sol.txt";
        "user_id" := VStr "u1" ]}].
Proof. vm_compute. split; reflexivity. Qed.

(** ** The further properties at work *)

Ltac in_trace := apply list_elem_of_In; vm_compute; tauto.

Lemma wrappers_pass_through_witness :
  let w := Demo.world (Some Demo.u1) 1700000000000 in
  let submission := {[ "message" := VStr "hello" ]} in
  ¬ no_cached_user w ∧
  outcome (createSubmission submission w) =
    Normal (VObj (<["user_id" := VStr "u1"]> submission)).
Proof.
  intros w submission.
  assert (H : ¬ no_cached_user w)
    by (unfold no_cached_user; vm_compute; intros E; discriminate E).
  split; [exact H|].
  destruct (wrappers_pass_through (P := Demo.platform) w Demo.sol "a.txt"
              submission H) as (_ & _ & Hdata).
  eapply Hdata. vm_compute. reflexivity.
Defined.

Lemma token_is_submission_user_id_witness :
  let w := DemoAuth.world (Some Demo.u1) 1700000000000 in
  let w' := final (addUserToRequest (AP := DemoAuth.auth) w) in
  DemoAuth.token (env w') = Some (VStr "u1") ∧
  List.filter is_request
    (trace (createSubmission {[ "message" := VStr "hello" ]} w')) =
    [ETableInsert "submissions"
       [{[ "user_id" := VStr "u1"; "message" := VStr "hello" ]}]].
Proof.
  intros w w'.
  destruct (token_is_submission_user_id (AP := DemoAuth.auth) w
              {[ "message" := VStr "hello" ]}) as [Henv Hrow].
  - vm_compute; reflexivity.
  - vm_compute; reflexivity.
  - split.
    + fold w' in Henv. rewrite Henv. vm_compute. reflexivity.
    + exact Hrow.
Defined.

Lemma user_without_id_witness :
  let w := DemoAuth.world (Some DemoAuth.anonymous) 1700000000000 in
  cached_user w = VObj {[ "id" := VStr "" ]} ∧
  final (addUserToRequest (AP := DemoAuth.auth) w) = w ∧
  List.filter is_request
    (trace (createSubmission {[ "message" := VStr "hello" ]} w)) =
    [ETableInsert "submissions"
       [{[ "user_id" := VStr ""; "message" := VStr "hello" ]}]].
Proof.
  intros w.
  split; [vm_compute; reflexivity|].
  destruct (user_without_id (AP := DemoAuth.auth) w
              {[ "message" := VStr "hello" ]}) as (_ & Hsame & Hrow).
  - unfold no_cached_user; vm_compute; intros E; discriminate E.
  - vm_compute; reflexivity.
  - split; [exact Hsame | exact Hrow].
Defined.

Lemma load_requires_configuration_witness :
  let w := DemoAuth.world (Some Demo.u1) 1700000000000 in
  load (AP := DemoAuth.auth) (Some "https://demo.supabase.co") None w =
    mkRun (Throw (JsError "Missing Supabase environment variables")) w [].
Proof.
  intros w.
  exact (proj1 (load_requires_configuration (AP := DemoAuth.auth)
                  (Some "https://demo.supabase.co") None w eq_refl)).
Defined.

Lemma load_with_configuration_witness :
  let w := DemoAuth.world (Some Demo.u1) 1700000000000 in
  outcome (load (AP := DemoAuth.auth) (Some "https://demo.supabase.co")
             (Some "anon-key") w) =
    Normal ("https://demo.supabase.co", "anon-key").
Proof.
  intros w.
  exact (load_with_configuration (AP := DemoAuth.auth)
           "https://demo.supabase.co" "anon-key" w eq_refl).
Defined.

Lemma variant_load_with_invalid_url_witness :
  let w := DemoAuth.world (Some Demo.u1) 1700000000000 in
  final (VariantModule.load (AP := DemoAuth.auth) (Some "not a url") None w) = w.
Proof.
  intros w.
  exact (proj2 (variant_load_with_invalid_url (AP := DemoAuth.auth)
                  (Some "not a url") None w (JsError "Invalid URL") eq_refl)).
Defined.

Lemma callback_throws_after_insert_witness :
  let w := Demo.world (Some Demo.u1) 1700000000000 in
  let r := handleSubmit (Some {| id := "u1" |}) "hello" None (Some DemoAuth.failing) w in
  occurs is_TableInsert (trace r) ∧
  length (Demo.rows (env (final r))) = 1%nat.
Proof.
  intros w r.
  destruct (callback_throws_after_insert (P := Demo.platform)
              (Some {| id := "u1" |}) "hello" None (Some DemoAuth.failing) w)
    as (Hrow & _).
  - apply existsb_occurs. vm_compute. reflexivity.
  - intros H. apply existsb_occurs in H. vm_compute in H. discriminate H.
  - split; [exact Hrow | vm_compute; reflexivity].
Defined.

Lemma submission_date_format_witness :
  let w := Demo.world (Some Demo.u1) 1700000000000 in
  ∃ y m d,
    1970 <= y <= 9999 ∧ 1 <= m <= 12 ∧ 1 <= d <= 31 ∧
    "2023-11-14" = pad 4 y ++ "-" ++ pad 2 m ++ "-" ++ pad 2 d.
Proof.
  intros w.
  destruct (submission_date_format (P := Demo.platform)
              (Some {| id := "u1" |}) "hello" None None w
              {[ "date" := VStr "2023-11-14"; "message" := VStr "hello";
                 "file_url" := VNull ]})
    as (y & m & d & Hy & Hm & Hd & Hdate).
  - vm_compute. split; [intros E; discriminate E | reflexivity].
  - in_trace.
  - exists y, m, d. repeat (split; [assumption|]).
    rewrite lookup_insert_eq in Hdate. congruence.
Defined.

Lemma upload_names_differ_by_time_witness :
  "u1_1001_sol.txt" = "u1_2001_sol.txt" ↔
  stamp_of (Demo.world (Some Demo.u1) 1000) =
    stamp_of (Demo.world (Some Demo.u1) 2000).
Proof.
  apply (upload_names_differ_by_time (P := Demo.platform) {| id := "u1" |}
           Demo.sol "hello" "hello" None None _ _ Demo.sol Demo.sol);
    in_trace.
Defined.
